(** * Network-change monitor of k8-controller: a shallow embedding

    The development follows [monitoring/monitoring.go].  That file holds two
    copies of the monitor: an unmasked entry point [startMonitoring] with its
    handlers, and a masked entry point [StartMonitoring] with a second,
    textually separate set of the same handlers.  Each copy is embedded in
    its own module ([Unmasked], [Masked]).

    Go's effects are made explicit:
    - the two [map[string]bool] values live in a [Tracker] record that the
      handlers read and mutate (Go maps are references, so the handler
      parameters [interfaces] and [newlyCreated] always denote the session's
      two maps);
    - [fmt.Println], a successful netlink subscription, [close] of a done
      channel and a send on the output channel are recorded, in program
      order, as a list of [Effect]s;
    - the non-deterministic [select] is resolved by the caller: a session is
      run on the list of notifications in the order in which the dispatcher
      received them. *)

From stdpp Require Import base strings list gmap fin_maps.
From Stdlib Require Import ZArith.

(** ** Values supplied by the Go libraries *)

(** [error], kept as its message. *)
Definition error : Type := string.

(** A Go [(value, error)] result pair. *)
Inductive result (A : Type) : Type :=
| Ok (a : A)
| Err (e : error).
Arguments Ok {A} a.
Arguments Err {A} e.

(** [syscall.RTM_*] message types (linux) and [net.FlagUp] ([1 << iota],
    first flag of [net.Flags]). *)
Definition RTM_NEWLINK : Z := 16.
Definition RTM_DELLINK : Z := 17.
Definition RTM_NEWROUTE : Z := 24.
Definition RTM_DELROUTE : Z := 25.
Definition FlagUp : Z := 1.

(** [netlink.LinkAttrs]: the two attributes the monitor inspects. *)
Record LinkAttrs : Type := { Name : string; Flags : Z }.

(** [netlink.Link], reached through [Attrs()]. *)
Record Link : Type := { Attrs : LinkAttrs }.

(** [unix.NlMsghdr]; the field is [Type] in Go. *)
Record NlMsghdr : Type := { Type_ : Z }.

(** [netlink.LinkUpdate]. *)
Record LinkUpdate : Type := { Header : NlMsghdr; Link_ : Link }.

(** [net.IPNet]; the address is kept in the textual form [fmt] prints. *)
Record IPNet : Type := { IP : string }.

(** [netlink.AddrUpdate]. *)
Record AddrUpdate : Type :=
  { LinkAddress : IPNet; LinkIndex : Z; NewAddr : bool }.

(** [netlink.Route]; the destination prefix in printed form. *)
Record Route : Type := { Dst : string }.

(** [netlink.RouteUpdate]; [RType] is the field [Type] in Go. *)
Record RouteUpdate : Type := { RType : Z; Route_ : Route }.

(** [net.Interface], as returned by [net.InterfaceByIndex]. *)
Record Interface : Type := { IfName : string }.

(** [event.GenericEvent{}]: the zero value, the only one ever sent. *)
Inductive GenericEvent : Type := GenericEventZero.

(** ** Observable effects *)

Inductive EventClass : Type := LinkClass | AddrClass | RouteClass.

Inductive Effect : Type :=
| Println (operands : list string)  (* fmt.Println(operands...) *)
| Subscribed (cls : EventClass)     (* netlink.<cls>Subscribe returned nil *)
| Closed (cls : EventClass)         (* close(done<cls>) *)
| Sent (ge : GenericEvent).         (* c <- ge *)

#[global] Instance EventClass_eq_dec : EqDecision EventClass.
Proof. solve_decision. Defined.

#[global] Instance GenericEvent_eq_dec : EqDecision GenericEvent.
Proof. solve_decision. Defined.

#[global] Instance Effect_eq_dec : EqDecision Effect.
Proof. solve_decision. Defined.

(** The signals among a list of effects, in order. *)
Definition signals (es : list Effect) : list GenericEvent :=
  omap (λ e, match e with Sent ge => Some ge | _ => None end) es.

(** The printed lines among a list of effects, in order. *)
Definition printed (es : list Effect) : list (list string) :=
  omap (λ e, match e with Println ops => Some ops | _ => None end) es.

(** The three classifications the link handler reports for a
    [RTM_NEWLINK] notification, recognised by the line it prints. *)
Definition line_added : list string := ["Interface added"].
Definition line_up (name : string) : list string := ["Interface"; name; "is up"].
Definition line_down (name : string) : list string := ["Interface"; name; "is down"].

(** ** The interface state tracker and the effect monad *)

(** The two maps of a session: [interfaces] (Existence Set) and
    [newlyCreated] (Newly-Created Set). *)
Record Tracker : Type :=
  { interfaces : gmap string bool; newlyCreated : gmap string bool }.

(** Go's [m[k]] on a [map[string]bool]: the zero value [false] when the key
    is missing. *)
Definition index (m : gmap string bool) (k : string) : bool :=
  default false (m !! k).

(** A computation reads and updates the tracker and emits effects. *)
Definition Run (A : Type) : Type := Tracker → A * Tracker * list Effect.

Definition value {A} (r : A * Tracker * list Effect) : A := r.1.1.
Definition after {A} (r : A * Tracker * list Effect) : Tracker := r.1.2.
Definition output {A} (r : A * Tracker * list Effect) : list Effect := r.2.

#[global] Instance Run_ret : MRet Run := λ A a s, (a, s, []).

#[global] Instance Run_bind : MBind Run := λ A B f c s,
  let r1 := c s in
  let r2 := f (value r1) (after r1) in
  (value r2, after r2, output r1 ++ output r2).

Definition emit (e : Effect) : Run unit := λ s, ((), s, [e]).

Definition println (operands : list string) : Run unit := emit (Println operands).

(** [interfaces[name]] *)
Definition readInterfaces (name : string) : Run bool :=
  λ s, (index (interfaces s) name, s, []).

(** [newlyCreated[name]] *)
Definition readNewlyCreated (name : string) : Run bool :=
  λ s, (index (newlyCreated s) name, s, []).

(** [interfaces[name] = v] *)
Definition storeInterfaces (name : string) (v : bool) : Run unit :=
  λ s, ((), {| interfaces := <[name := v]> (interfaces s);
               newlyCreated := newlyCreated s |}, []).

(** [newlyCreated[name] = v] *)
Definition storeNewlyCreated (name : string) (v : bool) : Run unit :=
  λ s, ((), {| interfaces := interfaces s;
               newlyCreated := <[name := v]> (newlyCreated s) |}, []).

(** [delete(interfaces, name)] *)
Definition deleteInterfaces (name : string) : Run unit :=
  λ s, ((), {| interfaces := delete name (interfaces s);
               newlyCreated := newlyCreated s |}, []).

(** [delete(newlyCreated, name)] *)
Definition deleteNewlyCreated (name : string) : Run unit :=
  λ s, ((), {| interfaces := interfaces s;
               newlyCreated := delete name (newlyCreated s) |}, []).

(** [newlyCreated := make(map[string]bool); interfaces := make(map[string]bool)] *)
Definition makeMaps : Run unit :=
  λ _, ((), {| interfaces := ∅; newlyCreated := ∅ |}, []).

(** ** What the session receives from outside *)

(** The answers of the netlink library at startup: the three subscribe
    calls ([None] is a nil error) and [netlink.LinkList()]. *)
Record Host : Type :=
  { AddrSubscribe : option error;
    LinkSubscribe : option error;
    RouteSubscribe : option error;
    LinkList : result (list Link) }.

(** One notification taken by the dispatcher's [select].  An address
    notification comes with the answer [net.InterfaceByIndex] gives at the
    moment the handler runs. *)
Inductive Arrival : Type :=
| OnLink (updateLink : LinkUpdate)
| OnAddr (updateAddr : AddrUpdate) (InterfaceByIndex : Z → result Interface)
| OnRoute (updateRoute : RouteUpdate).

Definition classOf (a : Arrival) : EventClass :=
  match a with
  | OnLink _ => LinkClass
  | OnAddr _ _ => AddrClass
  | OnRoute _ => RouteClass
  end.

(** How a call of a monitor entry point stands after the given arrivals:
    it has returned, or it is blocked in [select] waiting for the next one. *)
Inductive Status : Type := Returned | Selecting.

(** The deferred [close(doneLink)], [close(doneAddr)], [close(doneRoute)],
    run in reverse order of registration when the entry point returns. *)
Definition deferred : Run unit :=
  emit (Closed RouteClass);; emit (Closed AddrClass);; emit (Closed LinkClass).

(** The Interest Mask once decoded: the locals [link], [addr] and [route]
    of [StartMonitoring]. *)
Record Interest : Type := { link : bool; addr : bool; route : bool }.

(** ** The masked monitor (second copy in monitoring.go) *)

Module Masked.

(** [send(c)]: builds the zero event and sends it on [c]. *)
Definition send : Run unit :=
  let ge := GenericEventZero in
  emit (Sent ge).

Definition handleLinkUpdate (updateLink : LinkUpdate) : Run unit :=
  let name := updateLink.(Link_).(Attrs).(Name) in
  (if (updateLink.(Header).(Type_) =? RTM_DELLINK)%Z then
     println ["Interface removed:"; name];;
     deleteInterfaces name;;
     deleteNewlyCreated name
   else
     known ← readInterfaces name;
     if negb known && (updateLink.(Header).(Type_) =? RTM_NEWLINK)%Z then
       println ["Interface added"];;
       storeInterfaces name true;;
       storeNewlyCreated name true
     else if (updateLink.(Header).(Type_) =? RTM_NEWLINK)%Z then
       if negb (Z.land updateLink.(Link_).(Attrs).(Flags) FlagUp =? 0)%Z then
         println ["Interface"; name; "is up"];;
         deleteNewlyCreated name
       else
         fresh ← readNewlyCreated name;
         if negb fresh then println ["Interface"; name; "is down"]
         else mret ()
     else mret ());;
  send.

Definition handleAddrUpdate (InterfaceByIndex : Z → result Interface)
    (updateAddr : AddrUpdate) : Run unit :=
  match InterfaceByIndex updateAddr.(LinkIndex) with
  | Err _ =>
      println ["Address ("; updateAddr.(LinkAddress).(IP);
               ") removed from the deleted interface"]
  | Ok iface =>
      if updateAddr.(NewAddr) then
        println ["New address ("; updateAddr.(LinkAddress).(IP);
                 ") added to the interface:"; iface.(IfName)];;
        send
      else
        println ["Address ("; updateAddr.(LinkAddress).(IP);
                 ") removed from the interface:"; iface.(IfName)];;
        send
  end.

Definition handleRouteUpdate (updateRoute : RouteUpdate) : Run unit :=
  (if (updateRoute.(RType) =? RTM_NEWROUTE)%Z then
     println ["New route added:"; updateRoute.(Route_).(Dst)]
   else if (updateRoute.(RType) =? RTM_DELROUTE)%Z then
     println ["Route removed:"; updateRoute.(Route_).(Dst)]
   else mret ());;
  send.

(** The [switch flag] at the head of [StartMonitoring]; [None] is the
    [default] case. *)
Definition interest (flag : Z) : option Interest :=
  match flag with
  | 1%Z => Some {| link := true; addr := false; route := false |}
  | 2%Z => Some {| link := false; addr := true; route := false |}
  | 3%Z => Some {| link := true; addr := true; route := false |}
  | 4%Z => Some {| link := false; addr := false; route := true |}
  | 5%Z => Some {| link := true; addr := false; route := true |}
  | 6%Z => Some {| link := false; addr := true; route := true |}
  | 7%Z => Some {| link := true; addr := true; route := true |}
  | _ => None
  end.

(** [for _, link := range links { interfaces[link.Attrs().Name] = true }] *)
Fixpoint seed (links : list Link) : Run unit :=
  match links with
  | [] => mret ()
  | l :: rest => storeInterfaces l.(Attrs).(Name) true;; seed rest
  end.

(** One iteration of the [for { select { ... } }] loop on the
    notification [a]. *)
Definition dispatch (g : Interest) (a : Arrival) : Run unit :=
  match a with
  | OnLink updateLink =>
      if g.(link) then handleLinkUpdate updateLink else mret ()
  | OnAddr updateAddr InterfaceByIndex =>
      if g.(addr) then handleAddrUpdate InterfaceByIndex updateAddr else mret ()
  | OnRoute updateRoute =>
      if g.(route) then handleRouteUpdate updateRoute else mret ()
  end.

(** The loop on the notifications received so far. *)
Fixpoint loop (g : Interest) (arrivals : list Arrival) : Run unit :=
  match arrivals with
  | [] => mret ()
  | a :: rest => dispatch g a;; loop g rest
  end.

Definition StartMonitoring (flag : Z) (host : Host)
    (arrivals : list Arrival) : Run Status :=
  match interest flag with
  | None => println ["Error: invalid flag"];; mret Returned
  | Some g =>
    match host.(AddrSubscribe) with
    | Some err => println ["Error:"; err];; deferred;; mret Returned
    | None =>
      emit (Subscribed AddrClass);;
      match host.(LinkSubscribe) with
      | Some err => println ["Error:"; err];; deferred;; mret Returned
      | None =>
        emit (Subscribed LinkClass);;
        match host.(RouteSubscribe) with
        | Some err => println ["Error:"; err];; deferred;; mret Returned
        | None =>
          emit (Subscribed RouteClass);;
          makeMaps;;
          match host.(LinkList) with
          | Err err => println ["Error:"; err];; deferred;; mret Returned
          | Ok links =>
              seed links;;
              loop g arrivals;;
              mret Selecting
          end
        end
      end
    end
  end.

End Masked.

(** ** The unmasked monitor (first copy in monitoring.go) *)

Module Unmasked.

(** [send(c)]: builds the zero event and sends it on [c]. *)
Definition send : Run unit :=
  let ge := GenericEventZero in
  emit (Sent ge).

Definition handleLinkUpdate (updateLink : LinkUpdate) : Run unit :=
  let name := updateLink.(Link_).(Attrs).(Name) in
  (if (updateLink.(Header).(Type_) =? RTM_DELLINK)%Z then
     println ["Interface removed:"; name];;
     deleteInterfaces name;;
     deleteNewlyCreated name
   else
     known ← readInterfaces name;
     if negb known && (updateLink.(Header).(Type_) =? RTM_NEWLINK)%Z then
       println ["Interface added"];;
       storeInterfaces name true;;
       storeNewlyCreated name true
     else if (updateLink.(Header).(Type_) =? RTM_NEWLINK)%Z then
       if negb (Z.land updateLink.(Link_).(Attrs).(Flags) FlagUp =? 0)%Z then
         println ["Interface"; name; "is up"];;
         deleteNewlyCreated name
       else
         fresh ← readNewlyCreated name;
         if negb fresh then println ["Interface"; name; "is down"]
         else mret ()
     else mret ());;
  send.

Definition handleAddrUpdate (InterfaceByIndex : Z → result Interface)
    (updateAddr : AddrUpdate) : Run unit :=
  match InterfaceByIndex updateAddr.(LinkIndex) with
  | Err _ =>
      println ["Address ("; updateAddr.(LinkAddress).(IP);
               ") removed from the deleted interface"]
  | Ok iface =>
      if updateAddr.(NewAddr) then
        println ["New address ("; updateAddr.(LinkAddress).(IP);
                 ") added to the interface:"; iface.(IfName)];;
        send
      else
        println ["Address ("; updateAddr.(LinkAddress).(IP);
                 ") removed from the interface:"; iface.(IfName)];;
        send
  end.

Definition handleRouteUpdate (updateRoute : RouteUpdate) : Run unit :=
  (if (updateRoute.(RType) =? RTM_NEWROUTE)%Z then
     println ["New route added:"; updateRoute.(Route_).(Dst)]
   else if (updateRoute.(RType) =? RTM_DELROUTE)%Z then
     println ["Route removed:"; updateRoute.(Route_).(Dst)]
   else mret ());;
  send.

(** [for _, link := range links { interfaces[link.Attrs().Name] = true }] *)
Fixpoint seed (links : list Link) : Run unit :=
  match links with
  | [] => mret ()
  | l :: rest => storeInterfaces l.(Attrs).(Name) true;; seed rest
  end.

(** One iteration of the [for { select { ... } }] loop on the
    notification [a]. *)
Definition dispatch (a : Arrival) : Run unit :=
  match a with
  | OnLink updateLink => handleLinkUpdate updateLink
  | OnAddr updateAddr InterfaceByIndex =>
      handleAddrUpdate InterfaceByIndex updateAddr
  | OnRoute updateRoute => handleRouteUpdate updateRoute
  end.

(** The loop on the notifications received so far. *)
Fixpoint loop (arrivals : list Arrival) : Run unit :=
  match arrivals with
  | [] => mret ()
  | a :: rest => dispatch a;; loop rest
  end.

Definition startMonitoring (host : Host) (arrivals : list Arrival) : Run Status :=
  match host.(AddrSubscribe) with
  | Some err => println ["Error:"; err];; deferred;; mret Returned
  | None =>
    emit (Subscribed AddrClass);;
    match host.(LinkSubscribe) with
    | Some err => println ["Error:"; err];; deferred;; mret Returned
    | None =>
      emit (Subscribed LinkClass);;
      match host.(RouteSubscribe) with
      | Some err => println ["Error:"; err];; deferred;; mret Returned
      | None =>
        emit (Subscribed RouteClass);;
        makeMaps;;
        match host.(LinkList) with
        | Err err => println ["Error:"; err];; deferred;; mret Returned
        | Ok links =>
            seed links;;
            loop arrivals;;
            mret Selecting
        end
      end
    end
  end.

End Unmasked.

(** A call of an entry point starts with no maps; [makeMaps] creates them. *)
Definition boot : Tracker := {| interfaces := ∅; newlyCreated := ∅ |}.

(** ** Vocabulary of the properties *)

(** The class [cls] is enabled in the decoded mask [g]. *)
Definition enabled (g : Interest) (cls : EventClass) : bool :=
  match cls with
  | LinkClass => g.(link)
  | AddrClass => g.(addr)
  | RouteClass => g.(route)
  end.

(** [net.InterfaceByIndex] succeeds for the owner of an address
    notification; link and route notifications need no resolution. *)
Definition resolved (a : Arrival) : bool :=
  match a with
  | OnAddr updateAddr InterfaceByIndex =>
      match InterfaceByIndex updateAddr.(LinkIndex) with
      | Ok _ => true
      | Err _ => false
      end
  | _ => true
  end.

Definition nameOf (u : LinkUpdate) : string := u.(Link_).(Attrs).(Name).

(** The operational "up" flag of a link notification, as the handler
    tests it. *)
Definition isUp (u : LinkUpdate) : bool :=
  negb (Z.land u.(Link_).(Attrs).(Flags) FlagUp =? 0)%Z.

(** [u] is a [RTM_NEWLINK] (resp. [RTM_DELLINK]) notification for [name]. *)
Definition isNewLink (name : string) (u : LinkUpdate) : bool :=
  (u.(Header).(Type_) =? RTM_NEWLINK)%Z && bool_decide (nameOf u = name).

Definition isDelLink (name : string) (u : LinkUpdate) : bool :=
  (u.(Header).(Type_) =? RTM_DELLINK)%Z && bool_decide (nameOf u = name).

(** No link notification for [name] in [a] carries the "up" flag. *)
Definition noUpFor (name : string) (a : Arrival) : bool :=
  match a with
  | OnLink u => negb (bool_decide (nameOf u = name) && isUp u)
  | _ => true
  end.

(** Every name of the Newly-Created Set is in the Existence Set. *)
Definition newlyCreated_within_interfaces (t : Tracker) : Prop :=
  ∀ name, index (newlyCreated t) name = true → index (interfaces t) name = true.

(** Only [true] is ever stored in the two maps, so a missing key and a
    [false] lookup are the same thing. *)
Definition stores_only_true (t : Tracker) : Prop :=
  ∀ name, interfaces t !! name ≠ Some false ∧ newlyCreated t !! name ≠ Some false.

(** While no notification with the "up" flag arrives for [name], every
    state in which [name] exists still has it newly created. *)
Definition still_initializing (name : string) (t : Tracker) : Prop :=
  index (interfaces t) name = true → index (newlyCreated t) name = true.

(** The handler the dispatcher has for the class of a notification. *)
Definition handlerOf (a : Arrival) : Run unit :=
  match a with
  | OnLink updateLink => Masked.handleLinkUpdate updateLink
  | OnAddr updateAddr InterfaceByIndex =>
      Masked.handleAddrUpdate InterfaceByIndex updateAddr
  | OnRoute updateRoute => Masked.handleRouteUpdate updateRoute
  end.

(** The names [netlink.LinkList()] enumerated. *)
Definition namesOf (links : list Link) : list string :=
  (λ l, l.(Attrs).(Name)) <$> links.

(** The link notifications the dispatcher hands to the link handler under
    the mask [g], in order. *)
Definition processedLinks (g : Interest) (arrivals : list Arrival) : list LinkUpdate :=
  if g.(link) then
    omap (λ a, match a with OnLink u => Some u | _ => None end) arrivals
  else [].

(** The wording of the Existence Set invariant over a history of processed
    link notifications: some link-add (RTM_NEWLINK) for [name] was processed
    with no link-delete (RTM_DELLINK) for [name] after it.  A name that was
    there [initially] (enumerated at startup) counts as added before the
    first notification. *)
Definition added_and_not_deleted (initially : Prop)
    (history : list LinkUpdate) (name : string) : Prop :=
  (∃ before u later,
      history = before ++ u :: later ∧ isNewLink name u = true ∧
      Forall (λ v, isDelLink name v = false) later)
  ∨ (initially ∧ Forall (λ v, isDelLink name v = false) history).

(** ** Sample notifications *)

Definition sampleLink (type : Z) (name : string) (flags : Z) : LinkUpdate :=
  {| Header := {| Type_ := type |};
     Link_ := {| Attrs := {| Name := name; Flags := flags |} |} |}.

Definition sampleAddr : AddrUpdate :=
  {| LinkAddress := {| IP := "10.1.0.7" |}; LinkIndex := 4; NewAddr := true |}.

Definition sampleRoute : RouteUpdate :=
  {| RType := 24; Route_ := {| Dst := "10.0.0.0/8" |} |}.

Definition sampleHost : Host :=
  {| AddrSubscribe := None; LinkSubscribe := None; RouteSubscribe := None;
     LinkList := Ok [ {| Attrs := {| Name := "lo"; Flags := 1 |} |} ] |}.

(** ** The copy in package main

    The program's [main] holds a third copy of the handlers and runs the
    dispatcher loop in a goroutine.  Its [send] also writes a [klog] line
    after the channel send, so its effects are those of the monitoring
    package plus [klog.Infof] lines. *)

Module Main.

Inductive MainEffect : Type :=
| Lib (e : Effect)          (* an effect of the kinds above *)
| Klog (message : string).  (* klog.Infof(message) *)

Definition RunK (A : Type) : Type := Tracker → A * Tracker * list MainEffect.

Definition tracker {A} (r : A * Tracker * list MainEffect) : Tracker := r.1.2.
Definition log {A} (r : A * Tracker * list MainEffect) : list MainEffect := r.2.

#[global] Instance RunK_ret : MRet RunK := λ A a s, (a, s, []).

#[global] Instance RunK_bind : MBind RunK := λ A B f c s,
  let r1 := c s in
  let r2 := f r1.1.1 (tracker r1) in
  (r2.1.1, tracker r2, log r1 ++ log r2).

(** A computation of the monitoring package's kind, run in [main]. *)
Definition lib {A} (c : Run A) : RunK A :=
  λ s, (value (c s), after (c s), Lib <$> output (c s)).

Definition Infof (message : string) : RunK unit := λ s, ((), s, [Klog message]).

(** [send(c)]: sends the zero event on [c], then logs. *)
Definition send : RunK unit :=
  let ge := GenericEventZero in
  lib (emit (Sent ge));;
  Infof "Starting Netlink routine".

Definition handleLinkUpdate (updateLink : LinkUpdate) : RunK unit :=
  let name := updateLink.(Link_).(Attrs).(Name) in
  (if (updateLink.(Header).(Type_) =? RTM_DELLINK)%Z then
     lib (println ["Interface removed:"; name]);;
     lib (deleteInterfaces name);;
     lib (deleteNewlyCreated name)
   else
     known ← lib (readInterfaces name);
     if negb known && (updateLink.(Header).(Type_) =? RTM_NEWLINK)%Z then
       lib (println ["Interface added"]);;
       lib (storeInterfaces name true);;
       lib (storeNewlyCreated name true)
     else if (updateLink.(Header).(Type_) =? RTM_NEWLINK)%Z then
       if negb (Z.land updateLink.(Link_).(Attrs).(Flags) FlagUp =? 0)%Z then
         lib (println ["Interface"; name; "is up"]);;
         lib (deleteNewlyCreated name)
       else
         fresh ← lib (readNewlyCreated name);
         if negb fresh then lib (println ["Interface"; name; "is down"])
         else mret ()
     else mret ());;
  send.

Definition handleAddrUpdate (InterfaceByIndex : Z → result Interface)
    (updateAddr : AddrUpdate) : RunK unit :=
  match InterfaceByIndex updateAddr.(LinkIndex) with
  | Err _ =>
      lib (println ["Address ("; updateAddr.(LinkAddress).(IP);
                    ") removed from the deleted interface"])
  | Ok iface =>
      (if updateAddr.(NewAddr) then
         lib (println ["New address ("; updateAddr.(LinkAddress).(IP);
                       ") added to the interface:"; iface.(IfName)])
       else
         lib (println ["Address ("; updateAddr.(LinkAddress).(IP);
                       ") removed from the interface:"; iface.(IfName)]));;
      send
  end.

Definition handleRouteUpdate (updateRoute : RouteUpdate) : RunK unit :=
  (if (updateRoute.(RType) =? RTM_NEWROUTE)%Z then
     lib (println ["New route added:"; updateRoute.(Route_).(Dst)])
   else if (updateRoute.(RType) =? RTM_DELROUTE)%Z then
     lib (println ["Route removed:"; updateRoute.(Route_).(Dst)])
   else mret ());;
  send.

(** One iteration of the goroutine's [for { select { ... } }]. *)
Definition dispatch (a : Arrival) : RunK unit :=
  match a with
  | OnLink updateLink => handleLinkUpdate updateLink
  | OnAddr updateAddr InterfaceByIndex =>
      handleAddrUpdate InterfaceByIndex updateAddr
  | OnRoute updateRoute => handleRouteUpdate updateRoute
  end.

(** The goroutine's loop on the notifications received so far. *)
Fixpoint loop (arrivals : list Arrival) : RunK unit :=
  match arrivals with
  | [] => mret ()
  | a :: rest => dispatch a;; loop rest
  end.

End Main.

(** The effects of [main]'s copy other than its [klog] lines. *)
Definition withoutKlog (es : list Main.MainEffect) : list Effect :=
  omap (λ e, match e with Main.Lib e => Some e | Main.Klog _ => None end) es.

(** Every send in [es] is immediately followed by the [klog] line of
    [Main.send], and no other [klog] line occurs. *)
Fixpoint sendsAreLogged (es : list Main.MainEffect) : bool :=
  match es with
  | [] => true
  | Main.Lib (Sent _) :: rest =>
      match rest with
      | Main.Klog message :: rest' =>
          bool_decide (message = "Starting Netlink routine") && sendsAreLogged rest'
      | _ => false
      end
  | Main.Lib _ :: rest => sendsAreLogged rest
  | Main.Klog _ :: _ => false
  end.

(** ** More vocabulary *)

Definition isLinkArrival (a : Arrival) : bool :=
  match a with OnLink _ => true | _ => false end.

(** A notification that makes the dispatcher send a signal under [g]. *)
Definition signalling (g : Interest) (a : Arrival) : bool :=
  enabled g (classOf a) && resolved a.

(** The subscriptions established before the first failing setup step: the
    three subscribe calls are made in the order address, link, route. *)
Definition establishedBefore (host : Host) : list EventClass :=
  match host.(AddrSubscribe) with
  | Some _ => []
  | None =>
    match host.(LinkSubscribe) with
    | Some _ => [AddrClass]
    | None =>
      match host.(RouteSubscribe) with
      | Some _ => [AddrClass; LinkClass]
      | None => [AddrClass; LinkClass; RouteClass]
      end
    end
  end.

(** The error of the first failing setup step, if any. *)
Definition firstFailure (host : Host) : option error :=
  match host.(AddrSubscribe) with
  | Some err => Some err
  | None =>
    match host.(LinkSubscribe) with
    | Some err => Some err
    | None =>
      match host.(RouteSubscribe) with
      | Some err => Some err
      | None =>
        match host.(LinkList) with
        | Err err => Some err
        | Ok _ => None
        end
      end
    end
  end.

(** The subscriptions and closes among a list of effects, in order. *)
Definition lifecycle (es : list Effect) : list Effect :=
  omap (λ e, match e with
             | Subscribed _ | Closed _ => Some e
             | _ => None
             end) es.

(** Neither a RTM_DELLINK for [name] nor a RTM_NEWLINK for [name] with the
    "up" flag. *)
Definition keepsNewlyCreated (name : string) (v : LinkUpdate) : bool :=
  negb (isDelLink name v) && negb (isNewLink name v && isUp v).

(** Over a history of processed link notifications: some RTM_NEWLINK for
    [name] arrived while [name] was not in the Existence Set (it was not
    there [initially], or had been deleted since), and every notification
    after it keeps [name] newly created. *)
Definition newly_added_and_not_confirmed (initially : Prop)
    (history : list LinkUpdate) (name : string) : Prop :=
  ∃ before u later,
    history = before ++ u :: later ∧ isNewLink name u = true ∧
    ¬ added_and_not_deleted initially before name ∧
    Forall (λ v, keepsNewlyCreated name v = true) later.

(** ** Running the embedding on the end-to-end scenarios *)

Example scenario_mask3 :
  signals (output (Masked.StartMonitoring 3 sampleHost
     [OnLink (sampleLink 16 "eth9" 0);
      OnAddr sampleAddr (λ _, Ok {| IfName := "eth9" |});
      OnRoute sampleRoute] boot))
  = [GenericEventZero; GenericEventZero].
Proof. reflexivity. Qed.

Example scenario_mask1 :
  let r := Masked.StartMonitoring 1 sampleHost
     [OnLink (sampleLink 16 "eth0" 0); OnLink (sampleLink 16 "eth0" 0);
      OnLink (sampleLink 16 "eth0" 1)] boot in
  printed (output r) = [line_added; line_up "eth0"] ∧
  length (signals (output r)) = 3 ∧
  newlyCreated (after r) = ∅.
Proof. vm_compute. done. Qed.

(** ** Equations of the monad and of the loops *)

Lemma bind_run {A B} (c : Run A) (f : A → Run B) (s : Tracker) :
  (c ≫= f) s =
  (value (f (value (c s)) (after (c s))),
   after (f (value (c s)) (after (c s))),
   output (c s) ++ output (f (value (c s)) (after (c s)))).
Proof. reflexivity. Qed.

Lemma signals_app (es1 es2 : list Effect) :
  signals (es1 ++ es2) = signals es1 ++ signals es2.
Proof. apply omap_app. Qed.

Lemma printed_app (es1 es2 : list Effect) :
  printed (es1 ++ es2) = printed es1 ++ printed es2.
Proof. apply omap_app. Qed.

Ltac run_unfold :=
  unfold mbind, mret, Run_bind, Run_ret, println, emit,
    readInterfaces, readNewlyCreated, storeInterfaces, storeNewlyCreated,
    deleteInterfaces, deleteNewlyCreated, makeMaps, value, after, output.

Lemma tracker_eta (t : Tracker) :
  {| interfaces := interfaces t; newlyCreated := newlyCreated t |} = t.
Proof. by destruct t. Qed.

Lemma loop_cons_after (g : Interest) (a : Arrival) (l : list Arrival) (t : Tracker) :
  after (Masked.loop g (a :: l) t)
  = after (Masked.loop g l (after (Masked.dispatch g a t))).
Proof. reflexivity. Qed.

Lemma loop_cons_output (g : Interest) (a : Arrival) (l : list Arrival) (t : Tracker) :
  output (Masked.loop g (a :: l) t)
  = output (Masked.dispatch g a t)
    ++ output (Masked.loop g l (after (Masked.dispatch g a t))).
Proof. reflexivity. Qed.

Lemma loop_after_app (g : Interest) (l1 l2 : list Arrival) (t : Tracker) :
  after (Masked.loop g (l1 ++ l2) t)
  = after (Masked.loop g l2 (after (Masked.loop g l1 t))).
Proof.
  revert t. induction l1 as [|a l1 IH]; intros t; [done|].
  rewrite <- app_comm_cons, !loop_cons_after. apply IH.
Qed.

Lemma loop_output_app (g : Interest) (l1 l2 : list Arrival) (t : Tracker) :
  output (Masked.loop g (l1 ++ l2) t)
  = output (Masked.loop g l1 t)
    ++ output (Masked.loop g l2 (after (Masked.loop g l1 t))).
Proof.
  revert t. induction l1 as [|a l1 IH]; intros t; [done|].
  rewrite <- app_comm_cons, !loop_cons_output, loop_cons_after, IH.
  by rewrite app_assoc.
Qed.

(** ** The link handler, case by case *)

Section LinkHandler.
Variable u : LinkUpdate.
Variable t : Tracker.

Lemma link_delete :
  u.(Header).(Type_) = RTM_DELLINK →
  Masked.handleLinkUpdate u t =
  ((), {| interfaces := delete (nameOf u) (interfaces t);
          newlyCreated := delete (nameOf u) (newlyCreated t) |},
   [Println ["Interface removed:"; nameOf u]; Sent GenericEventZero]).
Proof. intros E. unfold Masked.handleLinkUpdate. by rewrite E. Qed.

Lemma link_add :
  u.(Header).(Type_) = RTM_NEWLINK →
  index (interfaces t) (nameOf u) = false →
  Masked.handleLinkUpdate u t =
  ((), {| interfaces := <[nameOf u := true]> (interfaces t);
          newlyCreated := <[nameOf u := true]> (newlyCreated t) |},
   [Println line_added; Sent GenericEventZero]).
Proof.
  intros E K. unfold Masked.handleLinkUpdate. rewrite E.
  run_unfold. simpl. fold (nameOf u). by rewrite K.
Qed.

Lemma link_up :
  u.(Header).(Type_) = RTM_NEWLINK →
  index (interfaces t) (nameOf u) = true →
  isUp u = true →
  Masked.handleLinkUpdate u t =
  ((), {| interfaces := interfaces t;
          newlyCreated := delete (nameOf u) (newlyCreated t) |},
   [Println (line_up (nameOf u)); Sent GenericEventZero]).
Proof.
  intros E K U. unfold Masked.handleLinkUpdate. rewrite E.
  run_unfold. simpl. fold (nameOf u). rewrite K. simpl.
  fold (isUp u). by rewrite U.
Qed.

Lemma link_down :
  u.(Header).(Type_) = RTM_NEWLINK →
  index (interfaces t) (nameOf u) = true →
  isUp u = false →
  index (newlyCreated t) (nameOf u) = false →
  Masked.handleLinkUpdate u t =
  ((), t, [Println (line_down (nameOf u)); Sent GenericEventZero]).
Proof.
  intros E K U F. unfold Masked.handleLinkUpdate. rewrite E.
  run_unfold. simpl. fold (nameOf u). rewrite K. simpl.
  fold (isUp u). rewrite U. simpl. by rewrite F.
Qed.

Lemma link_suppressed :
  u.(Header).(Type_) = RTM_NEWLINK →
  index (interfaces t) (nameOf u) = true →
  isUp u = false →
  index (newlyCreated t) (nameOf u) = true →
  Masked.handleLinkUpdate u t = ((), t, [Sent GenericEventZero]).
Proof.
  intros E K U F. unfold Masked.handleLinkUpdate. rewrite E.
  run_unfold. simpl. fold (nameOf u). rewrite K. simpl.
  fold (isUp u). rewrite U. simpl. by rewrite F.
Qed.

Lemma link_other :
  u.(Header).(Type_) ≠ RTM_NEWLINK →
  u.(Header).(Type_) ≠ RTM_DELLINK →
  Masked.handleLinkUpdate u t = ((), t, [Sent GenericEventZero]).
Proof.
  intros N D. unfold Masked.handleLinkUpdate.
  apply Z.eqb_neq in N, D. rewrite N, D.
  run_unfold. simpl. by rewrite andb_false_r.
Qed.

(** The handler always falls in one of the six cases above. *)
Lemma link_cases :
  (u.(Header).(Type_) = RTM_DELLINK)
  ∨ (u.(Header).(Type_) = RTM_NEWLINK ∧ index (interfaces t) (nameOf u) = false)
  ∨ (u.(Header).(Type_) = RTM_NEWLINK ∧ index (interfaces t) (nameOf u) = true
     ∧ isUp u = true)
  ∨ (u.(Header).(Type_) = RTM_NEWLINK ∧ index (interfaces t) (nameOf u) = true
     ∧ isUp u = false ∧ index (newlyCreated t) (nameOf u) = false)
  ∨ (u.(Header).(Type_) = RTM_NEWLINK ∧ index (interfaces t) (nameOf u) = true
     ∧ isUp u = false ∧ index (newlyCreated t) (nameOf u) = true)
  ∨ (u.(Header).(Type_) ≠ RTM_NEWLINK ∧ u.(Header).(Type_) ≠ RTM_DELLINK).
Proof.
  destruct (decide (u.(Header).(Type_) = RTM_DELLINK)); [by left|].
  destruct (decide (u.(Header).(Type_) = RTM_NEWLINK)); [|by do 5 right].
  right.
  destruct (index (interfaces t) (nameOf u)); [|by left].
  destruct (isUp u); [by right; left|].
  destruct (index (newlyCreated t) (nameOf u)); naive_solver.
Qed.

End LinkHandler.

(** ** The switch on the flag *)

Lemma interest_invalid (flag : Z) :
  ¬ (1 ≤ flag ≤ 7)%Z → Masked.interest flag = None.
Proof.
  intros H. destruct flag as [|p|p]; [done| |done].
  destruct p as [[[?|?|]|[?|?|]|]|[[?|?|]|[?|?|]|]|]; try done; lia.
Qed.

Lemma interest_valid (flag : Z) (g : Interest) :
  Masked.interest flag = Some g → (1 ≤ flag ≤ 7)%Z.
Proof.
  intros H. destruct (decide (1 ≤ flag ≤ 7)%Z) as [|N]; [done|].
  by rewrite (interest_invalid _ N) in H.
Qed.

(** ** Handlers: signals and tracker *)

Lemma link_handler_one_signal (u : LinkUpdate) (t : Tracker) :
  signals (output (Masked.handleLinkUpdate u t)) = [GenericEventZero].
Proof.
  destruct (link_cases u t) as [H|[[H1 H2]|[(H1&H2&H3)|[(H1&H2&H3&H4)|[(H1&H2&H3&H4)|[H1 H2]]]]]].
  - by rewrite link_delete.
  - by rewrite link_add.
  - by rewrite link_up.
  - by rewrite link_down.
  - by rewrite link_suppressed.
  - by rewrite link_other.
Qed.

Lemma route_handler_run (r : RouteUpdate) (t : Tracker) :
  after (Masked.handleRouteUpdate r t) = t ∧
  signals (output (Masked.handleRouteUpdate r t)) = [GenericEventZero].
Proof.
  unfold Masked.handleRouteUpdate.
  destruct (r.(RType) =? RTM_NEWROUTE)%Z; [done|].
  by destruct (r.(RType) =? RTM_DELROUTE)%Z.
Qed.

Lemma addr_handler_after (f : Z → result Interface) (a : AddrUpdate) (t : Tracker) :
  after (Masked.handleAddrUpdate f a t) = t.
Proof.
  unfold Masked.handleAddrUpdate.
  destruct (f a.(LinkIndex)); [|done]. by destruct a.(NewAddr).
Qed.

Lemma addr_handler_resolved (f : Z → result Interface) (a : AddrUpdate)
    (iface : Interface) (t : Tracker) :
  f a.(LinkIndex) = Ok iface →
  signals (output (Masked.handleAddrUpdate f a t)) = [GenericEventZero].
Proof.
  intros E. unfold Masked.handleAddrUpdate. rewrite E. by destruct a.(NewAddr).
Qed.

Lemma addr_handler_unresolved (f : Z → result Interface) (a : AddrUpdate)
    (e : error) (t : Tracker) :
  f a.(LinkIndex) = Err e →
  Masked.handleAddrUpdate f a t =
  ((), t, [Println ["Address ("; a.(LinkAddress).(IP);
                    ") removed from the deleted interface"]]).
Proof. intros E. unfold Masked.handleAddrUpdate. by rewrite E. Qed.

Lemma dispatch_disabled (g : Interest) (a : Arrival) (t : Tracker) :
  enabled g (classOf a) = false → Masked.dispatch g a t = ((), t, []).
Proof. destruct a; simpl; by intros ->. Qed.

(** Over a whole run of the loop there are as many signals as there are
    notifications of an enabled class whose owner, for an address, resolves. *)
Lemma loop_signal_count (g : Interest) (arrivals : list Arrival) (t : Tracker) :
  length (signals (output (Masked.loop g arrivals t)))
  = length (filter (λ a, enabled g (classOf a) && resolved a = true) arrivals).
Proof.
  revert t. induction arrivals as [|a l IH]; intros t; [done|].
  rewrite loop_cons_output, signals_app, length_app, IH, filter_cons.
  destruct (enabled g (classOf a)) eqn:E.
  - destruct a as [u|a f|r]; simpl in E; simpl; rewrite E.
    + by rewrite link_handler_one_signal.
    + unfold Masked.handleAddrUpdate.
      destruct (f a.(LinkIndex)); [|done]. by destruct a.(NewAddr).
    + by rewrite (proj2 (route_handler_run r t)).
  - by rewrite dispatch_disabled.
Qed.

(** ** Signal emission *)

(** C1: every link, route and successfully resolved address notification
    that the dispatcher takes while its class is enabled in the Interest Mask
    makes it send exactly one Generic Change Signal, whatever the tracker
    holds and therefore whatever classification the link handler reports. *)
Theorem enabled_event_sends_one_signal (g : Interest) (a : Arrival) (t : Tracker) :
  enabled g (classOf a) = true →
  resolved a = true →
  signals (output (Masked.dispatch g a t)) = [GenericEventZero].
Proof.
  intros E R. destruct a as [u|a f|r]; simpl in E; simpl; rewrite E.
  - apply link_handler_one_signal.
  - simpl in R. destruct (f a.(LinkIndex)) as [iface|] eqn:F; [|done].
    by apply (addr_handler_resolved f a iface).
  - apply route_handler_run.
Qed.

Lemma enabled_event_sends_one_signal_witness :
  signals (output (Masked.dispatch {| link := true; addr := false; route := false |}
                     (OnLink (sampleLink 16 "eth0" 0)) boot))
  = [GenericEventZero].
Proof.
  apply (enabled_event_sends_one_signal
           {| link := true; addr := false; route := false |}
           (OnLink (sampleLink 16 "eth0" 0)) boot); reflexivity.
Defined.



(** ** Unresolvable address notifications *)

(** C4: when [net.InterfaceByIndex] fails for the owner of an address
    notification, the address handler prints one line, sends no signal and
    leaves both maps as they were; the dispatcher then goes on with the
    notifications that follow exactly as if this one had not arrived. *)
Theorem unresolved_address_is_dropped (g : Interest) (f : Z → result Interface)
    (a : AddrUpdate) (e : error) (rest : list Arrival) (t : Tracker) :
  f a.(LinkIndex) = Err e →
  signals (output (Masked.handleAddrUpdate f a t)) = [] ∧
  after (Masked.handleAddrUpdate f a t) = t ∧
  output (Masked.handleAddrUpdate f a t)
    = [Println ["Address ("; a.(LinkAddress).(IP);
                ") removed from the deleted interface"]] ∧
  after (Masked.loop g (OnAddr a f :: rest) t) = after (Masked.loop g rest t) ∧
  signals (output (Masked.loop g (OnAddr a f :: rest) t))
    = signals (output (Masked.loop g rest t)).
Proof.
  intros E. rewrite (addr_handler_unresolved f a e t E).
  do 3 (split; [done|]). split.
  - rewrite loop_cons_after. simpl. destruct g.(addr); [|done].
    by rewrite addr_handler_after.
  - rewrite loop_cons_output, signals_app. simpl.
    destruct g.(addr); [|done].
    by rewrite (addr_handler_unresolved f a e t E).
Qed.

Lemma unresolved_address_is_dropped_witness :
  signals (output (Masked.handleAddrUpdate (λ _, Err "no such network interface")
                     sampleAddr boot)) = [].
Proof.
  apply (unresolved_address_is_dropped
           {| link := true; addr := true; route := true |}
           (λ _, Err "no such network interface") sampleAddr
           "no such network interface" [] boot).
  reflexivity.
Defined.

(** ** Link deletion *)

(** C3: after the link handler has run on a RTM_DELLINK notification the
    name is a key of neither map, whatever the maps held before; when it was
    in neither map the tracker is unchanged (the handler has no failing
    path); and running the handler a second time on the same notification
    changes nothing more. *)
Theorem link_delete_clears_both_sets (u : LinkUpdate) (t : Tracker) :
  u.(Header).(Type_) = RTM_DELLINK →
  let t' := after (Masked.handleLinkUpdate u t) in
  (interfaces t' !! nameOf u = None ∧ newlyCreated t' !! nameOf u = None) ∧
  (index (interfaces t') (nameOf u) = false ∧
   index (newlyCreated t') (nameOf u) = false) ∧
  (interfaces t !! nameOf u = None → newlyCreated t !! nameOf u = None → t' = t) ∧
  (stores_only_true t → index (interfaces t) (nameOf u) = false →
   index (newlyCreated t) (nameOf u) = false → t' = t) ∧
  after (Masked.handleLinkUpdate u t') = t'.
Proof.
  intros E t'. subst t'. rewrite !(link_delete u _ E).
  assert (A : ∀ m : gmap string bool,
             m !! nameOf u = None → delete (nameOf u) m = m)
    by (intros m; apply delete_id).
  unfold after. simpl. repeat split.
  - apply lookup_delete_eq.
  - apply lookup_delete_eq.
  - unfold index. by rewrite lookup_delete_eq.
  - unfold index. by rewrite lookup_delete_eq.
  - intros I N. rewrite (A _ I), (A _ N). apply tracker_eta.
  - intros W I N. destruct (W (nameOf u)) as [W1 W2]. unfold index in I, N.
    rewrite (A (interfaces t)), (A (newlyCreated t)).
    + apply tracker_eta.
    + destruct (newlyCreated t !! nameOf u) as [[]|]; naive_solver.
    + destruct (interfaces t !! nameOf u) as [[]|]; naive_solver.
  - by rewrite (A (delete (nameOf u) (interfaces t))),
       (A (delete (nameOf u) (newlyCreated t))) by apply lookup_delete_eq.
Qed.

Lemma link_delete_clears_both_sets_witness :
  let t := {| interfaces := {[ "eth0" := true ]}; newlyCreated := {[ "eth0" := true ]} |} in
  let t' := after (Masked.handleLinkUpdate (sampleLink 17 "eth0" 0) t) in
  (interfaces t' !! "eth0" = None ∧ newlyCreated t' !! "eth0" = None) ∧
  after (Masked.handleLinkUpdate (sampleLink 17 "eth0" 0) t') = t'.
Proof.
  intros t t'.
  pose proof (link_delete_clears_both_sets (sampleLink 17 "eth0" 0) t eq_refl) as H.
  split; [apply H|apply H].
Defined.

(** ** Invalid Interest Mask *)

(** C5: with a flag outside 1..7 the masked entry point prints the
    configuration error and returns at once: that line is its only effect,
    so no subscription is established and no signal is sent, whatever the
    host would have answered and whatever notifications were waiting; none of
    them is processed and the tracker is untouched. *)
Theorem invalid_flag_returns_immediately (flag : Z) (host : Host)
    (arrivals : list Arrival) (t : Tracker) :
  ¬ (1 ≤ flag ≤ 7)%Z →
  Masked.StartMonitoring flag host arrivals t
    = (Returned, t, [Println ["Error: invalid flag"]]) ∧
  (∀ cls, Subscribed cls ∉ output (Masked.StartMonitoring flag host arrivals t)) ∧
  signals (output (Masked.StartMonitoring flag host arrivals t)) = [].
Proof.
  intros H. unfold Masked.StartMonitoring. rewrite (interest_invalid flag H).
  split; [done|]. split; [|done].
  intros cls. run_unfold. simpl. rewrite list_elem_of_singleton. discriminate.
Qed.

Lemma invalid_flag_returns_immediately_witness :
  Masked.StartMonitoring 8 sampleHost [OnLink (sampleLink 16 "eth0" 0)] boot
    = (Returned, boot, [Println ["Error: invalid flag"]]).
Proof.
  apply (invalid_flag_returns_immediately 8 sampleHost
           [OnLink (sampleLink 16 "eth0" 0)] boot).
  lia.
Defined.

(** ** Shape of a session *)

Lemma seed_cons_after (l : Link) (links : list Link) (t : Tracker) :
  after (Masked.seed (l :: links) t)
  = after (Masked.seed links
             {| interfaces := <[l.(Attrs).(Name) := true]> (interfaces t);
                newlyCreated := newlyCreated t |}).
Proof. reflexivity. Qed.

Lemma seed_cons_output (l : Link) (links : list Link) (t : Tracker) :
  output (Masked.seed (l :: links) t)
  = output (Masked.seed links
              {| interfaces := <[l.(Attrs).(Name) := true]> (interfaces t);
                 newlyCreated := newlyCreated t |}).
Proof. reflexivity. Qed.

Lemma seed_output (links : list Link) (t : Tracker) :
  output (Masked.seed links t) = [].
Proof.
  revert t. induction links as [|l links IH]; intros t; [done|].
  rewrite seed_cons_output. apply IH.
Qed.

Lemma seed_newlyCreated (links : list Link) (t : Tracker) :
  newlyCreated (after (Masked.seed links t)) = newlyCreated t.
Proof.
  revert t. induction links as [|l links IH]; intros t; [done|].
  rewrite seed_cons_after. by rewrite IH.
Qed.

(** A call that has not returned went through the switch, the three
    subscriptions and the enumeration. *)
Lemma session_selecting (flag : Z) (host : Host) (arrivals : list Arrival)
    (t : Tracker) :
  value (Masked.StartMonitoring flag host arrivals t) = Selecting →
  ∃ g links,
    Masked.interest flag = Some g ∧ host.(AddrSubscribe) = None ∧
    host.(LinkSubscribe) = None ∧ host.(RouteSubscribe) = None ∧
    host.(LinkList) = Ok links.
Proof.
  unfold Masked.StartMonitoring.
  destruct (Masked.interest flag) as [g|]; [|done].
  destruct host.(AddrSubscribe); [done|].
  destruct host.(LinkSubscribe); [done|].
  destruct host.(RouteSubscribe); [done|].
  destruct host.(LinkList) as [links|]; [|done].
  intros _. by exists g, links.
Qed.

Lemma session_run (flag : Z) (host : Host) (arrivals : list Arrival)
    (t : Tracker) (g : Interest) (links : list Link) :
  Masked.interest flag = Some g → host.(AddrSubscribe) = None →
  host.(LinkSubscribe) = None → host.(RouteSubscribe) = None →
  host.(LinkList) = Ok links →
  Masked.StartMonitoring flag host arrivals t =
  (Selecting,
   after (Masked.loop g arrivals (after (Masked.seed links boot))),
   [Subscribed AddrClass; Subscribed LinkClass; Subscribed RouteClass]
   ++ output (Masked.loop g arrivals (after (Masked.seed links boot)))).
Proof.
  intros E1 E2 E3 E4 E5. unfold Masked.StartMonitoring.
  rewrite E1, E2, E3, E4, E5. rewrite !bind_run.
  unfold value, after, output. simpl.
  change (Masked.seed links _) with (Masked.seed links boot).
  pose proof (seed_output links boot) as S. unfold output in S. rewrite S.
  simpl. by rewrite app_nil_r.
Qed.

(** A call that has returned never created or touched the maps it was
    started with, or returned right after creating them empty. *)
Lemma session_returned (flag : Z) (host : Host) (arrivals : list Arrival) :
  value (Masked.StartMonitoring flag host arrivals boot) = Returned →
  after (Masked.StartMonitoring flag host arrivals boot) = boot ∧
  signals (output (Masked.StartMonitoring flag host arrivals boot)) = [].
Proof.
  unfold Masked.StartMonitoring.
  destruct (Masked.interest flag) as [g|]; [|done].
  destruct host.(AddrSubscribe); [done|].
  destruct host.(LinkSubscribe); [done|].
  destruct host.(RouteSubscribe); [done|].
  destruct host.(LinkList) as [links|]; done.
Qed.

(** Every handler leaves a trace when it runs. *)
Lemma handler_output_nonempty (a : Arrival) (t : Tracker) :
  output (handlerOf a t) ≠ [].
Proof.
  destruct a as [u|a f|r]; unfold handlerOf.
  - intros H. pose proof (link_handler_one_signal u t) as S. by rewrite H in S.
  - unfold Masked.handleAddrUpdate.
    destruct (f a.(LinkIndex)); [|done]. by destruct a.(NewAddr).
  - intros H. pose proof (proj2 (route_handler_run r t)) as S. by rewrite H in S.
Qed.

(** ** Interest Mask gating *)

(** C6: under a valid Interest Mask, a notification of a disabled class
    goes through the dispatcher without any effect: no line, no signal and
    no change of the tracker, whereas the handler of its class would have
    left a trace had it run.  A session that takes it stands exactly where
    it stood before, although its subscription for that class was
    established at startup. *)
Theorem disabled_class_is_ignored (flag : Z) (g : Interest) (host : Host)
    (earlier : list Arrival) (a : Arrival) (t : Tracker) :
  Masked.interest flag = Some g →
  enabled g (classOf a) = false →
  Masked.dispatch g a t = ((), t, []) ∧
  output (handlerOf a t) ≠ [] ∧
  Masked.StartMonitoring flag host (earlier ++ [a]) boot
    = Masked.StartMonitoring flag host earlier boot ∧
  (value (Masked.StartMonitoring flag host (earlier ++ [a]) boot) = Selecting →
   Subscribed (classOf a)
     ∈ output (Masked.StartMonitoring flag host (earlier ++ [a]) boot)).
Proof.
  intros G D. split; [by apply dispatch_disabled|].
  split; [apply handler_output_nonempty|].
  assert (Same : Masked.StartMonitoring flag host (earlier ++ [a]) boot
                 = Masked.StartMonitoring flag host earlier boot).
  { destruct (value (Masked.StartMonitoring flag host earlier boot)) eqn:V.
    - revert V. unfold Masked.StartMonitoring. rewrite G.
      destruct host.(AddrSubscribe); [done|].
      destruct host.(LinkSubscribe); [done|].
      destruct host.(RouteSubscribe); [done|].
      destruct host.(LinkList) as [links|]; done.
    - destruct (session_selecting _ _ _ _ V) as (g'&links&E1&E2&E3&E4&E5).
      rewrite !(session_run flag host _ boot g' links) by done.
      rewrite loop_after_app, loop_output_app.
      assert (g' = g) as -> by congruence.
      rewrite loop_cons_after, loop_cons_output, dispatch_disabled by done.
      unfold after at 1 4, output at 2 3. simpl. by rewrite app_nil_r. }
  split; [done|]. rewrite Same. intros V.
  destruct (session_selecting _ _ _ _ V) as (g'&links&E1&E2&E3&E4&E5).
  rewrite (session_run flag host _ boot g' links) by done.
  unfold output. simpl. destruct a; simpl; rewrite !elem_of_cons; auto.
Qed.

Lemma disabled_class_is_ignored_witness :
  Masked.StartMonitoring 3 sampleHost
    ([OnLink (sampleLink 16 "eth9" 0)] ++ [OnRoute sampleRoute]) boot
  = Masked.StartMonitoring 3 sampleHost [OnLink (sampleLink 16 "eth9" 0)] boot.
Proof.
  apply (disabled_class_is_ignored 3
           {| link := true; addr := true; route := false |} sampleHost
           [OnLink (sampleLink 16 "eth9" 0)] (OnRoute sampleRoute) boot);
    reflexivity.
Defined.

(** ** Lookups after an update *)

Lemma index_insert (m : gmap string bool) (k name : string) :
  index (<[k := true]> m) name = if decide (k = name) then true else index m name.
Proof. unfold index. rewrite lookup_insert. by case_decide. Qed.

Lemma index_delete (m : gmap string bool) (k name : string) :
  index (delete k m) name = if decide (k = name) then false else index m name.
Proof. unfold index. rewrite lookup_delete. by case_decide. Qed.

Lemma index_empty (name : string) : index ∅ name = false.
Proof. unfold index. by rewrite lookup_empty. Qed.

(** What the link handler does to the two lookups of any name. *)
Ltac link_step u t :=
  destruct (link_cases u t)
    as [?|[[? ?]|[(?&?&?)|[(?&?&?&?)|[(?&?&?&?)|[? ?]]]]]];
  [ rewrite (link_delete u t) by done
  | rewrite (link_add u t) by done
  | rewrite (link_up u t) by done
  | rewrite (link_down u t) by done
  | rewrite (link_suppressed u t) by done
  | rewrite (link_other u t) by done ];
  unfold after; simpl; rewrite ?index_insert, ?index_delete.

(** ** The subset invariant *)

Lemma link_handler_keeps_subset (u : LinkUpdate) (t : Tracker) :
  newlyCreated_within_interfaces t →
  newlyCreated_within_interfaces (after (Masked.handleLinkUpdate u t)).
Proof.
  intros I name. specialize (I name). revert I.
  link_step u t; repeat case_decide; naive_solver.
Qed.

Lemma dispatch_keeps_subset (g : Interest) (a : Arrival) (t : Tracker) :
  newlyCreated_within_interfaces t →
  newlyCreated_within_interfaces (after (Masked.dispatch g a t)).
Proof.
  intros I. destruct a as [u|a f|r]; simpl.
  - destruct g.(link); [|done]. by apply link_handler_keeps_subset.
  - destruct g.(addr); [|done]. by rewrite addr_handler_after.
  - destruct g.(route); [|done]. by rewrite (proj1 (route_handler_run r t)).
Qed.

Lemma loop_keeps_subset (g : Interest) (arrivals : list Arrival) (t : Tracker) :
  newlyCreated_within_interfaces t →
  newlyCreated_within_interfaces (after (Masked.loop g arrivals t)).
Proof.
  revert t. induction arrivals as [|a l IH]; intros t I; [done|].
  rewrite loop_cons_after. by apply IH, dispatch_keeps_subset.
Qed.

Lemma nothing_newly_created (t : Tracker) :
  newlyCreated t = ∅ → newlyCreated_within_interfaces t.
Proof. intros E name. by rewrite E, index_empty. Qed.

(** C7: the Newly-Created Set is included in the Existence Set once the
    maps are created and seeded by the enumeration, the link handler keeps
    the inclusion on every link notification (delete, add, modified or
    other), and so it holds wherever a session stands after any sequence of
    notifications. *)
Theorem newlyCreated_subset_of_interfaces (flag : Z) (host : Host)
    (arrivals : list Arrival) :
  newlyCreated_within_interfaces (after (Masked.StartMonitoring flag host [] boot)) ∧
  (∀ u t, newlyCreated_within_interfaces t →
          newlyCreated_within_interfaces (after (Masked.handleLinkUpdate u t))) ∧
  newlyCreated_within_interfaces
    (after (Masked.StartMonitoring flag host arrivals boot)).
Proof.
  assert (R : ∀ l, newlyCreated_within_interfaces
                     (after (Masked.StartMonitoring flag host l boot))).
  { intros l.
    destruct (value (Masked.StartMonitoring flag host l boot)) eqn:V.
    - rewrite (proj1 (session_returned _ _ _ V)). by apply nothing_newly_created.
    - destruct (session_selecting _ _ _ _ V) as (g&links&E1&E2&E3&E4&E5).
      rewrite (session_run flag host l boot g links) by done.
      unfold after at 1. simpl. apply loop_keeps_subset, nothing_newly_created.
      by rewrite seed_newlyCreated. }
  split; [apply R|]. split; [apply link_handler_keeps_subset|apply R].
Qed.

Lemma newlyCreated_subset_of_interfaces_witness :
  newlyCreated_within_interfaces
    (after (Masked.handleLinkUpdate (sampleLink 16 "eth0" 0) boot)).
Proof.
  apply (proj1 (proj2 (newlyCreated_subset_of_interfaces 7 sampleHost []))).
  intros name. vm_compute. discriminate.
Defined.

(** ** Only [true] is stored *)

Lemma link_handler_stores_only_true (u : LinkUpdate) (t : Tracker) :
  stores_only_true t → stores_only_true (after (Masked.handleLinkUpdate u t)).
Proof.
  intros W name. destruct (W name) as [W1 W2].
  destruct (link_cases u t)
    as [?|[[? ?]|[(?&?&?)|[(?&?&?&?)|[(?&?&?&?)|[? ?]]]]]];
  [ rewrite (link_delete u t) by done
  | rewrite (link_add u t) by done
  | rewrite (link_up u t) by done
  | rewrite (link_down u t) by done
  | rewrite (link_suppressed u t) by done
  | rewrite (link_other u t) by done ];
  unfold after; simpl; rewrite ?lookup_insert, ?lookup_delete;
  repeat case_decide; split; congruence.
Qed.

Lemma loop_stores_only_true (g : Interest) (arrivals : list Arrival) (t : Tracker) :
  stores_only_true t → stores_only_true (after (Masked.loop g arrivals t)).
Proof.
  revert t. induction arrivals as [|a l IH]; intros t W; [done|].
  rewrite loop_cons_after. apply IH.
  destruct a as [u|a f|r]; cbn [Masked.dispatch].
  - destruct g.(link); [|done]. by apply link_handler_stores_only_true.
  - destruct g.(addr); [|done]. by rewrite addr_handler_after.
  - destruct g.(route); [|done]. by rewrite (proj1 (route_handler_run r t)).
Qed.

Lemma seed_stores_only_true (links : list Link) (t : Tracker) :
  stores_only_true t → stores_only_true (after (Masked.seed links t)).
Proof.
  revert t. induction links as [|l links IH]; intros t W; [done|].
  rewrite seed_cons_after. apply IH. intros name. destruct (W name) as [W1 W2].
  simpl. rewrite lookup_insert. case_decide; split; congruence.
Qed.

Lemma boot_stores_only_true : stores_only_true boot.
Proof. intros name. unfold boot. simpl. by rewrite !lookup_empty. Qed.

(** Wherever a session stands, a missing key and a [false] lookup coincide. *)
Lemma session_stores_only_true (flag : Z) (host : Host) (arrivals : list Arrival) :
  stores_only_true (after (Masked.StartMonitoring flag host arrivals boot)).
Proof.
  destruct (value (Masked.StartMonitoring flag host arrivals boot)) eqn:V.
  - rewrite (proj1 (session_returned _ _ _ V)). apply boot_stores_only_true.
  - destruct (session_selecting _ _ _ _ V) as (g&links&E1&E2&E3&E4&E5).
    rewrite (session_run flag host arrivals boot g links) by done.
    unfold after at 1. simpl.
    apply loop_stores_only_true, seed_stores_only_true, boot_stores_only_true.
Qed.

(** ** The two entry points *)

Lemma unmasked_seed (links : list Link) (t : Tracker) :
  Unmasked.seed links t = Masked.seed links t.
Proof.
  revert t. induction links as [|l links IH]; intros t; [done|].
  simpl. by rewrite !bind_run, IH.
Qed.

Lemma unmasked_dispatch (a : Arrival) (t : Tracker) :
  Unmasked.dispatch a t
  = Masked.dispatch {| link := true; addr := true; route := true |} a t.
Proof. by destruct a. Qed.

Lemma unmasked_loop (arrivals : list Arrival) (t : Tracker) :
  Unmasked.loop arrivals t
  = Masked.loop {| link := true; addr := true; route := true |} arrivals t.
Proof.
  revert t. induction arrivals as [|a l IH]; intros t; [done|].
  cbn [Unmasked.loop Masked.loop]. by rewrite !bind_run, unmasked_dispatch, IH.
Qed.

(** C9: on the same host answers and the same sequence of link, address
    and route notifications, [startMonitoring] and [StartMonitoring] called
    with flag 7 stand in the same place with the same tracker and the same
    sequence of effects, hence the same sequence of signals. *)
Theorem unmasked_is_masked_with_all_classes (host : Host)
    (arrivals : list Arrival) (t : Tracker) :
  Unmasked.startMonitoring host arrivals t
    = Masked.StartMonitoring 7 host arrivals t ∧
  after (Unmasked.startMonitoring host arrivals t)
    = after (Masked.StartMonitoring 7 host arrivals t) ∧
  signals (output (Unmasked.startMonitoring host arrivals t))
    = signals (output (Masked.StartMonitoring 7 host arrivals t)).
Proof.
  assert (E : Unmasked.startMonitoring host arrivals t
              = Masked.StartMonitoring 7 host arrivals t).
  { unfold Unmasked.startMonitoring, Masked.StartMonitoring.
    cbn [Masked.interest].
    destruct host.(AddrSubscribe); [done|].
    destruct host.(LinkSubscribe); [done|].
    destruct host.(RouteSubscribe); [done|].
    destruct host.(LinkList) as [links|]; [|done].
    rewrite !bind_run. by rewrite unmasked_seed, unmasked_loop. }
  by rewrite E.
Qed.

(** ** Suppression of the transient "down" *)

Lemma dispatch_still_initializing (g : Interest) (name : string)
    (a : Arrival) (t : Tracker) :
  noUpFor name a = true →
  still_initializing name t →
  still_initializing name (after (Masked.dispatch g a t)).
Proof.
  intros Q I. destruct a as [u|a f|r]; cbn [Masked.dispatch].
  - destruct g.(link); [|done]. revert I. unfold still_initializing.
    cbn [noUpFor] in Q. apply negb_true_iff, andb_false_iff in Q.
    rewrite bool_decide_eq_false in Q. revert Q.
    link_step u t; repeat case_decide; intros [Q|Q] I; try congruence; auto.
  - destruct g.(addr); [|done]. by rewrite addr_handler_after.
  - destruct g.(route); [|done]. by rewrite (proj1 (route_handler_run r t)).
Qed.

Lemma loop_still_initializing (g : Interest) (name : string)
    (arrivals : list Arrival) (t : Tracker) :
  Forall (λ a, noUpFor name a = true) arrivals →
  still_initializing name t →
  still_initializing name (after (Masked.loop g arrivals t)).
Proof.
  revert t. induction arrivals as [|a l IH]; intros t Q I; [done|].
  apply Forall_cons in Q as [Qa Ql].
  rewrite loop_cons_after. by apply IH, dispatch_still_initializing.
Qed.

(** C2: let a link-add notification for a name that is not in the
    Existence Set be handled, then any notifications among which none for
    that name carries the "up" flag, then a RTM_NEWLINK notification for the
    same name with the "up" flag clear.  Handling this last one prints no
    "is down" line, for this name or any other, and leaves the name in the
    Newly-Created Set. *)
Theorem no_down_for_newly_created (g : Interest) (t : Tracker) (name : string)
    (u1 u2 : LinkUpdate) (between : list Arrival) :
  index (interfaces t) name = false →
  u1.(Header).(Type_) = RTM_NEWLINK → nameOf u1 = name →
  Forall (λ a, noUpFor name a = true) between →
  u2.(Header).(Type_) = RTM_NEWLINK → nameOf u2 = name → isUp u2 = false →
  let t1 := after (Masked.handleLinkUpdate u1 t) in
  let t2 := after (Masked.loop g between t1) in
  (∀ n, line_down n ∉ printed (output (Masked.handleLinkUpdate u2 t2))) ∧
  index (newlyCreated (after (Masked.handleLinkUpdate u2 t2))) name = true.
Proof.
  intros K E1 N1 Q E2 N2 U2 t1 t2.
  assert (I1 : still_initializing name t1).
  { subst t1. rewrite (link_add u1 t) by (by rewrite ?N1).
    intros _. unfold after. simpl. rewrite index_insert, N1. by case_decide. }
  assert (I2 : still_initializing name t2)
    by (by apply loop_still_initializing).
  destruct (index (interfaces t2) name) eqn:K2.
  - rewrite (link_suppressed u2 t2) by (rewrite ?N2; auto).
    split; [|by apply I2].
    intros n. unfold printed, output. simpl. apply not_elem_of_nil.
  - rewrite (link_add u2 t2) by (by rewrite ?N2).
    split.
    + intros n. unfold printed, output. simpl.
      rewrite list_elem_of_singleton. discriminate.
    + unfold after. simpl. rewrite index_insert, N2. by case_decide.
Qed.

Lemma no_down_for_newly_created_witness :
  let t1 := after (Masked.handleLinkUpdate (sampleLink 16 "eth0" 0) boot) in
  let t2 := after (Masked.loop {| link := true; addr := true; route := true |}
                     [OnRoute sampleRoute] t1) in
  (∀ n, line_down n
        ∉ printed (output (Masked.handleLinkUpdate (sampleLink 16 "eth0" 0) t2))) ∧
  index (newlyCreated (after (Masked.handleLinkUpdate (sampleLink 16 "eth0" 0) t2)))
        "eth0" = true.
Proof.
  apply (no_down_for_newly_created
           {| link := true; addr := true; route := true |} boot "eth0"
           (sampleLink 16 "eth0" 0) (sampleLink 16 "eth0" 0)
           [OnRoute sampleRoute]);
    try reflexivity.
  repeat constructor.
Defined.

(** The suppression is real: without the preceding link-add the same
    notification is reported as "down". *)
Example down_when_not_newly_created :
  printed (output (Masked.handleLinkUpdate (sampleLink 16 "lo" 0)
                     {| interfaces := {[ "lo" := true ]}; newlyCreated := ∅ |}))
  = [line_down "lo"].
Proof. reflexivity. Qed.

(** ** The Existence Set and the history of link notifications *)

Lemma new_is_not_del (name : string) (u : LinkUpdate) :
  isNewLink name u = true → isDelLink name u = false.
Proof.
  unfold isNewLink, isDelLink. intros H.
  apply andb_true_iff in H as [H _]. apply Z.eqb_eq in H. by rewrite H.
Qed.

Lemma added_initially_iff (P Q : Prop) (history : list LinkUpdate) (name : string) :
  (P ↔ Q) →
  added_and_not_deleted P history name ↔ added_and_not_deleted Q history name.
Proof.
  unfold added_and_not_deleted. intros [PQ QP].
  split; (intros [H|[H F]]; [by left|right; split; auto]).
Qed.

Lemma added_nil (P : Prop) (name : string) :
  added_and_not_deleted P [] name ↔ P.
Proof.
  unfold added_and_not_deleted. split.
  - intros [(before&u&later&E&_)|[H _]]; [|done].
    by destruct before.
  - intros H. right. by split.
Qed.

Lemma added_cons (P : Prop) (u : LinkUpdate) (history : list LinkUpdate)
    (name : string) :
  added_and_not_deleted P (u :: history) name ↔
  added_and_not_deleted
    (if isDelLink name u then False else if isNewLink name u then True else P)
    history name.
Proof.
  unfold added_and_not_deleted. split.
  - intros [(before&v&later&E&N&F)|[H F]].
    + destruct before as [|w before]; simpl in E; injection E as -> ->.
      * right. by rewrite (new_is_not_del _ _ N), N.
      * left. by exists before, v, later.
    + apply Forall_cons in F as [D F]. right. rewrite D.
      split; [|done]. by destruct (isNewLink name u).
  - intros [(before&v&later&E&N&F)|[H F]].
    + left. exists (u :: before), v, later. by rewrite E.
    + destruct (isDelLink name u) eqn:D; [done|].
      destruct (isNewLink name u) eqn:N.
      * left. by exists [], u, history.
      * right. split; [done|]. by apply Forall_cons.
Qed.

Lemma link_handler_interfaces (u : LinkUpdate) (t : Tracker) (name : string) :
  index (interfaces (after (Masked.handleLinkUpdate u t))) name =
  if isDelLink name u then false
  else if isNewLink name u then true
  else index (interfaces t) name.
Proof.
  unfold isDelLink, isNewLink.
  destruct (link_cases u t)
    as [E|[[E K]|[(E&K&?)|[(E&K&?&?)|[(E&K&?&?)|[N D]]]]]].
  - rewrite (link_delete u t E), E. unfold after. simpl.
    rewrite index_delete. by case_decide; case_bool_decide.
  - rewrite (link_add u t E K), E. unfold after. simpl.
    rewrite index_insert. by case_decide; case_bool_decide.
  - rewrite (link_up u t) by done. rewrite E. unfold after. simpl.
    case_bool_decide; [|done]. by subst name.
  - rewrite (link_down u t) by done. rewrite E. unfold after. simpl.
    case_bool_decide; [|done]. by subst name.
  - rewrite (link_suppressed u t) by done. rewrite E. unfold after. simpl.
    case_bool_decide; [|done]. by subst name.
  - rewrite (link_other u t N D). apply Z.eqb_neq in N, D. by rewrite N, D.
Qed.

Lemma processedLinks_cons (g : Interest) (a : Arrival) (l : list Arrival) :
  processedLinks g (a :: l) =
  match a with
  | OnLink u => if g.(link) then u :: processedLinks g l else []
  | _ => processedLinks g l
  end.
Proof. unfold processedLinks. by destruct a, g.(link). Qed.

Lemma loop_interfaces (g : Interest) (arrivals : list Arrival) (t : Tracker)
    (name : string) :
  index (interfaces (after (Masked.loop g arrivals t))) name = true ↔
  added_and_not_deleted (index (interfaces t) name = true)
    (processedLinks g arrivals) name.
Proof.
  revert t. induction arrivals as [|a l IH]; intros t.
  { assert (processedLinks g [] = []) as -> by (unfold processedLinks; by destruct g.(link)).
    by rewrite added_nil. }
  rewrite loop_cons_after, IH, processedLinks_cons.
  destruct a as [u|a f|r]; cbn [Masked.dispatch].
  - destruct g.(link) eqn:L.
    + rewrite added_cons. apply added_initially_iff.
      rewrite link_handler_interfaces.
      destruct (isDelLink name u); [done|]. by destruct (isNewLink name u).
    + assert (processedLinks g l = []) as ->
        by (unfold processedLinks; by rewrite L).
      done.
  - destruct g.(addr); [|done]. by rewrite addr_handler_after.
  - destruct g.(route); [|done]. by rewrite (proj1 (route_handler_run r t)).
Qed.

Lemma seed_interfaces (links : list Link) (t : Tracker) (name : string) :
  index (interfaces (after (Masked.seed links t))) name = true ↔
  name ∈ namesOf links ∨ index (interfaces t) name = true.
Proof.
  revert t. induction links as [|l links IH]; intros t.
  { unfold namesOf. simpl. rewrite elem_of_nil. tauto. }
  rewrite seed_cons_after, IH. cbn [interfaces]. rewrite index_insert.
  unfold namesOf. rewrite fmap_cons, elem_of_cons.
  case_decide; [subst name; tauto|].
  split; [tauto|]. intros [[H'|H']|H']; [congruence|tauto|tauto].
Qed.

(** C8: wherever a monitoring session stands, a name is in the Existence
    Set exactly when a link-add notification for it has been processed with
    no link-delete notification for it processed afterwards, the names
    enumerated at startup counting as added before the first notification. *)
Theorem interfaces_follow_history (flag : Z) (host : Host)
    (arrivals : list Arrival) (g : Interest) (links : list Link) (name : string) :
  Masked.interest flag = Some g →
  host.(LinkList) = Ok links →
  value (Masked.StartMonitoring flag host arrivals boot) = Selecting →
  index (interfaces (after (Masked.StartMonitoring flag host arrivals boot))) name
    = true
  ↔ added_and_not_deleted (name ∈ namesOf links) (processedLinks g arrivals) name.
Proof.
  intros G L V.
  destruct (session_selecting _ _ _ _ V) as (g'&links'&E1&E2&E3&E4&E5).
  assert (g' = g) as -> by congruence.
  assert (links' = links) as -> by congruence.
  rewrite (session_run flag host arrivals boot g links) by done.
  unfold after at 1. simpl. rewrite loop_interfaces.
  apply added_initially_iff. rewrite seed_interfaces.
  unfold boot. cbn [interfaces]. rewrite index_empty.
  split; [intros [H|H]; [done|discriminate]|by left].
Qed.

Lemma interfaces_follow_history_witness :
  index (interfaces (after (Masked.StartMonitoring 1 sampleHost
           [OnLink (sampleLink 16 "eth0" 0); OnLink (sampleLink 17 "lo" 1)] boot)))
        "eth0" = true
  ↔ added_and_not_deleted ("eth0" ∈ namesOf [ {| Attrs := {| Name := "lo"; Flags := 1 |} |} ])
      (processedLinks {| link := true; addr := false; route := false |}
         [OnLink (sampleLink 16 "eth0" 0); OnLink (sampleLink 17 "lo" 1)])
      "eth0".
Proof.
  apply (interfaces_follow_history 1 sampleHost
           [OnLink (sampleLink 16 "eth0" 0); OnLink (sampleLink 17 "lo" 1)]
           {| link := true; addr := false; route := false |}
           [ {| Attrs := {| Name := "lo"; Flags := 1 |} |} ] "eth0");
    reflexivity.
Defined.


(** * Further properties of the handlers and of the session *)

Lemma after_triple {A} (a : A) (t : Tracker) (es : list Effect) :
  after (a, t, es) = t.
Proof. reflexivity. Qed.

Lemma output_triple {A} (a : A) (t : Tracker) (es : list Effect) :
  output (a, t, es) = es.
Proof. reflexivity. Qed.

(** ** Life of one interface *)

(** X1: a RTM_NEWLINK for a name that is not in the Existence Set, whatever
    flags it carries, followed by a RTM_NEWLINK for that name with the "up"
    flag set, is reported as "added" and then as "up"; one signal is sent
    for each, and the name ends as a key of [interfaces] and of no entry of
    [newlyCreated]. *)
Theorem added_then_up (t : Tracker) (name : string) (u1 u2 : LinkUpdate) :
  index (interfaces t) name = false →
  u1.(Header).(Type_) = RTM_NEWLINK → nameOf u1 = name →
  u2.(Header).(Type_) = RTM_NEWLINK → nameOf u2 = name → isUp u2 = true →
  let r1 := Masked.handleLinkUpdate u1 t in
  let r2 := Masked.handleLinkUpdate u2 (after r1) in
  printed (output r1) = [line_added] ∧
  printed (output r2) = [line_up name] ∧
  signals (output r1 ++ output r2) = [GenericEventZero; GenericEventZero] ∧
  interfaces (after r2) !! name = Some true ∧
  newlyCreated (after r2) !! name = None.
Proof.
  intros K E1 N1 E2 N2 U2 r1 r2. subst r1 r2.
  rewrite (link_add u1 t) by (by rewrite ?N1).
  rewrite !after_triple, !output_triple.
  rewrite (link_up u2) by
    (rewrite ?N2; auto; cbn [interfaces]; by rewrite index_insert, N1, decide_True).
  rewrite !after_triple, !output_triple, N1, N2.
  cbn [interfaces newlyCreated].
  repeat split; try done.
  - apply lookup_insert_eq.
  - apply lookup_delete_eq.
Qed.

Lemma added_then_up_witness :
  let r1 := Masked.handleLinkUpdate (sampleLink 16 "eth0" 0) boot in
  let r2 := Masked.handleLinkUpdate (sampleLink 16 "eth0" 1) (after r1) in
  printed (output r1) = [line_added] ∧
  printed (output r2) = [line_up "eth0"] ∧
  signals (output r1 ++ output r2) = [GenericEventZero; GenericEventZero] ∧
  interfaces (after r2) !! "eth0" = Some true ∧
  newlyCreated (after r2) !! "eth0" = None.
Proof.
  apply (added_then_up boot "eth0" (sampleLink 16 "eth0" 0) (sampleLink 16 "eth0" 1));
    reflexivity.
Defined.

(** X2: when a name is a key of neither map, a RTM_NEWLINK for it followed
    by a RTM_DELLINK for it gives back the tracker exactly as it was. *)
Theorem add_then_delete_restores (t : Tracker) (u1 u2 : LinkUpdate) :
  interfaces t !! nameOf u1 = None →
  newlyCreated t !! nameOf u1 = None →
  u1.(Header).(Type_) = RTM_NEWLINK →
  u2.(Header).(Type_) = RTM_DELLINK → nameOf u2 = nameOf u1 →
  after (Masked.handleLinkUpdate u2 (after (Masked.handleLinkUpdate u1 t))) = t.
Proof.
  intros I N E1 E2 N2.
  rewrite (link_add u1 t) by (unfold index; by rewrite ?I).
  rewrite after_triple, (link_delete u2) by done.
  rewrite after_triple, N2. cbn [interfaces newlyCreated].
  rewrite !delete_insert_id by done. apply tracker_eta.
Qed.

Lemma add_then_delete_restores_witness :
  after (Masked.handleLinkUpdate (sampleLink 17 "eth0" 0)
           (after (Masked.handleLinkUpdate (sampleLink 16 "eth0" 1) boot))) = boot.
Proof.
  apply (add_then_delete_restores boot (sampleLink 16 "eth0" 1)
           (sampleLink 17 "eth0" 0)); reflexivity.
Defined.

(** X3: the link handler prints an "is down" line exactly when the
    notification is a RTM_NEWLINK without the "up" flag for a name that is in
    the Existence Set and not in the Newly-Created Set; the line then names
    the interface of the notification. *)
Theorem down_reported_iff (u : LinkUpdate) (t : Tracker) (n : string) :
  line_down n ∈ printed (output (Masked.handleLinkUpdate u t)) ↔
  n = nameOf u ∧ u.(Header).(Type_) = RTM_NEWLINK ∧
  index (interfaces t) (nameOf u) = true ∧ isUp u = false ∧
  index (newlyCreated t) (nameOf u) = false.
Proof.
  destruct (link_cases u t)
    as [E|[[E K]|[(E&K&U)|[(E&K&U&F)|[(E&K&U&F)|[N D]]]]]].
  - rewrite (link_delete u t E). unfold printed, output. simpl.
    rewrite list_elem_of_singleton. split; [discriminate|].
    intros (_&E'&_). rewrite E in E'. discriminate.
  - rewrite (link_add u t E K). unfold printed, output. simpl.
    rewrite list_elem_of_singleton. split; [discriminate|].
    intros (_&_&K'&_). congruence.
  - rewrite (link_up u t E K U). unfold printed, output. simpl.
    rewrite list_elem_of_singleton. split; [discriminate|].
    intros (_&_&_&U'&_). congruence.
  - rewrite (link_down u t E K U F). unfold printed, output. simpl.
    rewrite list_elem_of_singleton. unfold line_down. split.
    + intros H. injection H as ->. done.
    + by intros (->&_).
  - rewrite (link_suppressed u t E K U F). unfold printed, output. simpl.
    rewrite elem_of_nil. split; [done|]. intros (_&_&_&_&F'). congruence.
  - rewrite (link_other u t N D). unfold printed, output. simpl.
    rewrite elem_of_nil. split; [done|]. by intros (_&E'&_).
Qed.

(** X4: the link handler leaves the entries of every name other than the
    one of its notification as they were, in both maps. *)
Theorem link_handler_touches_one_name (u : LinkUpdate) (t : Tracker) (name : string) :
  name ≠ nameOf u →
  interfaces (after (Masked.handleLinkUpdate u t)) !! name = interfaces t !! name ∧
  newlyCreated (after (Masked.handleLinkUpdate u t)) !! name = newlyCreated t !! name.
Proof.
  intros Ne.
  destruct (link_cases u t)
    as [?|[[? ?]|[(?&?&?)|[(?&?&?&?)|[(?&?&?&?)|[? ?]]]]]];
  [ rewrite (link_delete u t) by done
  | rewrite (link_add u t) by done
  | rewrite (link_up u t) by done
  | rewrite (link_down u t) by done
  | rewrite (link_suppressed u t) by done
  | rewrite (link_other u t) by done ];
  unfold after; cbn [fst snd interfaces newlyCreated];
  by rewrite ?lookup_insert_ne, ?lookup_delete_ne by done.
Qed.

Lemma link_handler_touches_one_name_witness :
  interfaces (after (Masked.handleLinkUpdate (sampleLink 17 "eth0" 0)
     {| interfaces := {[ "lo" := true ]}; newlyCreated := ∅ |})) !! "lo"
  = ({[ "lo" := true ]} : gmap string bool) !! "lo".
Proof.
  apply (link_handler_touches_one_name (sampleLink 17 "eth0" 0)
           {| interfaces := {[ "lo" := true ]}; newlyCreated := ∅ |} "lo").
  discriminate.
Defined.

(** X5: once a known interface has been seen "up", the suppression is
    over: the next RTM_NEWLINK for it without the "up" flag is reported as
    "down", and that report changes neither map. *)
Theorem down_after_up (t : Tracker) (name : string) (u1 u2 : LinkUpdate) :
  index (interfaces t) name = true →
  u1.(Header).(Type_) = RTM_NEWLINK → nameOf u1 = name → isUp u1 = true →
  u2.(Header).(Type_) = RTM_NEWLINK → nameOf u2 = name → isUp u2 = false →
  let r1 := Masked.handleLinkUpdate u1 t in
  let r2 := Masked.handleLinkUpdate u2 (after r1) in
  printed (output r1) = [line_up name] ∧
  printed (output r2) = [line_down name] ∧
  after r2 = after r1.
Proof.
  intros K E1 N1 U1 E2 N2 U2 r1 r2. subst r1 r2.
  rewrite (link_up u1 t) by (rewrite ?N1; auto).
  rewrite !after_triple, !output_triple.
  rewrite (link_down u2) by
    (rewrite ?N2; auto; cbn [interfaces newlyCreated];
     by rewrite ?N1, ?index_delete, ?decide_True).
  by rewrite !after_triple, !output_triple, N1, N2.
Qed.

Lemma down_after_up_witness :
  let t := {| interfaces := {[ "lo" := true ]}; newlyCreated := {[ "lo" := true ]} |} in
  let r1 := Masked.handleLinkUpdate (sampleLink 16 "lo" 1) t in
  let r2 := Masked.handleLinkUpdate (sampleLink 16 "lo" 0) (after r1) in
  printed (output r1) = [line_up "lo"] ∧
  printed (output r2) = [line_down "lo"] ∧
  after r2 = after r1.
Proof.
  apply (down_after_up
           {| interfaces := {[ "lo" := true ]}; newlyCreated := {[ "lo" := true ]} |}
           "lo" (sampleLink 16 "lo" 1) (sampleLink 16 "lo" 0));
    reflexivity.
Defined.

(** X6: a RTM_DELLINK for a name followed by a RTM_NEWLINK for it is always
    reported as "added", whatever the maps held before and whatever flags
    the second notification carries, and puts the name in both maps. *)
Theorem deleted_then_added_again (t : Tracker) (name : string) (u1 u2 : LinkUpdate) :
  u1.(Header).(Type_) = RTM_DELLINK → nameOf u1 = name →
  u2.(Header).(Type_) = RTM_NEWLINK → nameOf u2 = name →
  let r2 := Masked.handleLinkUpdate u2 (after (Masked.handleLinkUpdate u1 t)) in
  printed (output r2) = [line_added] ∧
  interfaces (after r2) !! name = Some true ∧
  newlyCreated (after r2) !! name = Some true.
Proof.
  intros E1 N1 E2 N2 r2. subst r2.
  rewrite (link_delete u1 t E1), after_triple.
  rewrite (link_add u2) by
    (rewrite ?N2; auto; cbn [interfaces];
     by rewrite N1, index_delete, decide_True).
  rewrite after_triple, output_triple, N2. cbn [interfaces newlyCreated].
  by rewrite !lookup_insert_eq.
Qed.

Lemma deleted_then_added_again_witness :
  let t := {| interfaces := {[ "lo" := true ]}; newlyCreated := ∅ |} in
  let r2 := Masked.handleLinkUpdate (sampleLink 16 "lo" 1)
              (after (Masked.handleLinkUpdate (sampleLink 17 "lo" 1) t)) in
  printed (output r2) = [line_added] ∧
  interfaces (after r2) !! "lo" = Some true ∧
  newlyCreated (after r2) !! "lo" = Some true.
Proof.
  apply (deleted_then_added_again
           {| interfaces := {[ "lo" := true ]}; newlyCreated := ∅ |}
           "lo" (sampleLink 17 "lo" 1) (sampleLink 16 "lo" 1));
    reflexivity.
Defined.

(** ** Shape of a handler's effects *)

(** The link handler prints at most one line and then sends one signal. *)
Lemma link_output_shape (u : LinkUpdate) (t : Tracker) :
  ∃ lines : list (list string),
    length lines ≤ 1 ∧
    output (Masked.handleLinkUpdate u t)
      = (Println <$> lines) ++ [Sent GenericEventZero].
Proof.
  destruct (link_cases u t)
    as [E|[[E K]|[(E&K&U)|[(E&K&U&F)|[(E&K&U&F)|[N D]]]]]].
  - rewrite (link_delete u t E). by exists [["Interface removed:"; nameOf u]].
  - rewrite (link_add u t E K). by exists [line_added].
  - rewrite (link_up u t E K U). by exists [line_up (nameOf u)].
  - rewrite (link_down u t E K U F). by exists [line_down (nameOf u)].
  - rewrite (link_suppressed u t E K U F). exists []. split; [simpl; lia|done].
  - rewrite (link_other u t N D). exists []. split; [simpl; lia|done].
Qed.

(** X7: whatever the mask, the notification and the tracker, one iteration
    of the dispatcher prints at most one line and sends at most one signal,
    and a signal it sends is its last effect; it never subscribes or closes
    anything. *)
Theorem dispatch_output_shape (g : Interest) (a : Arrival) (t : Tracker) :
  ∃ (lines : list (list string)) (sent : list GenericEvent),
    length lines ≤ 1 ∧ length sent ≤ 1 ∧
    output (Masked.dispatch g a t) = (Println <$> lines) ++ (Sent <$> sent).
Proof.
  destruct a as [u|a f|r]; cbn [Masked.dispatch].
  - destruct g.(link); [|exists [], []; simpl; split; [lia|split; [lia|done]]].
    destruct (link_output_shape u t) as (lines&L&->).
    exists lines, [GenericEventZero]. split; [done|]. split; [simpl; lia|done].
  - destruct g.(addr); [|exists [], []; simpl; split; [lia|split; [lia|done]]].
    unfold Masked.handleAddrUpdate. destruct (f a.(LinkIndex)) as [iface|e].
    + destruct a.(NewAddr).
      * exists [["New address ("; a.(LinkAddress).(IP);
                 ") added to the interface:"; iface.(IfName)]], [GenericEventZero].
        simpl. split; [lia|split; [lia|done]].
      * exists [["Address ("; a.(LinkAddress).(IP);
                 ") removed from the interface:"; iface.(IfName)]], [GenericEventZero].
        simpl. split; [lia|split; [lia|done]].
    + exists [["Address ("; a.(LinkAddress).(IP);
               ") removed from the deleted interface"]], [].
      simpl. split; [lia|split; [lia|done]].
  - destruct g.(route); [|exists [], []; simpl; split; [lia|split; [lia|done]]].
    unfold Masked.handleRouteUpdate.
    destruct (r.(RType) =? RTM_NEWROUTE)%Z.
    + exists [["New route added:"; r.(Route_).(Dst)]], [GenericEventZero].
      simpl. split; [lia|split; [lia|done]].
    + destruct (r.(RType) =? RTM_DELROUTE)%Z.
      * exists [["Route removed:"; r.(Route_).(Dst)]], [GenericEventZero].
        simpl. split; [lia|split; [lia|done]].
      * exists [], [GenericEventZero]. simpl. split; [lia|split; [lia|done]].
Qed.

(** X20: the link handler reports "added" exactly for a RTM_NEWLINK whose
    name is not in the Existence Set, and "up" exactly for a RTM_NEWLINK
    with the "up" flag whose name is in it; the "up" line names the
    interface of the notification. *)
Theorem added_and_up_reported_iff (u : LinkUpdate) (t : Tracker) (n : string) :
  (line_added ∈ printed (output (Masked.handleLinkUpdate u t)) ↔
   u.(Header).(Type_) = RTM_NEWLINK ∧ index (interfaces t) (nameOf u) = false) ∧
  (line_up n ∈ printed (output (Masked.handleLinkUpdate u t)) ↔
   n = nameOf u ∧ u.(Header).(Type_) = RTM_NEWLINK ∧
   index (interfaces t) (nameOf u) = true ∧ isUp u = true).
Proof.
  destruct (link_cases u t)
    as [E|[[E K]|[(E&K&U)|[(E&K&U&F)|[(E&K&U&F)|[N D]]]]]].
  - rewrite (link_delete u t E). unfold printed, output. simpl.
    rewrite !list_elem_of_singleton. split; (split; [discriminate|]).
    + intros [E' _]. rewrite E in E'. discriminate.
    + intros (_&E'&_). rewrite E in E'. discriminate.
  - rewrite (link_add u t E K). unfold printed, output. simpl.
    rewrite !list_elem_of_singleton. split; [done|].
    split; [discriminate|]. intros (_&_&K'&_). congruence.
  - rewrite (link_up u t E K U). unfold printed, output. simpl.
    rewrite !list_elem_of_singleton. split.
    + split; [discriminate|]. intros [_ K']. congruence.
    + unfold line_up. split; [intros H; by injection H as ->|by intros (->&_)].
  - rewrite (link_down u t E K U F). unfold printed, output. simpl.
    rewrite !list_elem_of_singleton. split; (split; [discriminate|]).
    + intros [_ K']. congruence.
    + intros (_&_&_&U'). congruence.
  - rewrite (link_suppressed u t E K U F). unfold printed, output. simpl.
    rewrite !elem_of_nil. split; (split; [done|]).
    + intros [_ K']. congruence.
    + intros (_&_&_&U'). congruence.
  - rewrite (link_other u t N D). unfold printed, output. simpl.
    rewrite !elem_of_nil. split; (split; [done|]).
    + by intros [E' _].
    + by intros (_&E'&_).
Qed.

(** X8: the address and route handlers neither write nor read the maps:
    they return the tracker they were given, and their effects are the same
    whatever that tracker holds. *)
Theorem address_and_route_ignore_tracker (f : Z → result Interface)
    (a : AddrUpdate) (r : RouteUpdate) (t t' : Tracker) :
  after (Masked.handleAddrUpdate f a t) = t ∧
  output (Masked.handleAddrUpdate f a t) = output (Masked.handleAddrUpdate f a t') ∧
  after (Masked.handleRouteUpdate r t) = t ∧
  output (Masked.handleRouteUpdate r t) = output (Masked.handleRouteUpdate r t').
Proof.
  split; [apply addr_handler_after|]. split.
  { unfold Masked.handleAddrUpdate.
    destruct (f a.(LinkIndex)); [|done]. by destruct a.(NewAddr). }
  split; [apply route_handler_run|].
  unfold Masked.handleRouteUpdate.
  destruct (r.(RType) =? RTM_NEWROUTE)%Z; [done|].
  by destruct (r.(RType) =? RTM_DELROUTE)%Z.
Qed.

(** ** The Interest Mask as three bits *)

(** X9: the switch on the flag decodes it as a bit field: for a flag in
    1..7 the link, address and route classes are enabled exactly when bit 0,
    bit 1 and bit 2 of the flag are set; every other flag is refused. *)
Theorem interest_is_bitmask (flag : Z) :
  Masked.interest flag =
  if decide (1 ≤ flag ≤ 7)%Z then
    Some {| link := Z.testbit flag 0;
            addr := Z.testbit flag 1;
            route := Z.testbit flag 2 |}
  else None.
Proof.
  case_decide as H; [|by apply interest_invalid].
  destruct flag as [|p|p]; [lia| |lia].
  destruct p as [[[?|?|]|[?|?|]|]|[[?|?|]|[?|?|]|]|]; try done; lia.
Qed.

(** ** Setup failures *)

(** X10: with a valid flag, when one of the three subscribe calls or the
    enumeration fails, the entry point returns with this trace: the
    subscriptions established before the failing step, in the order address,
    link, route; one "Error:" line with the error; then the close of all
    three done channels, route first and link last, also of those whose
    subscription was never made.  No signal is sent and no notification is
    looked at. *)
Theorem failed_setup_trace (flag : Z) (g : Interest) (host : Host) (err : error)
    (arrivals : list Arrival) (t : Tracker) :
  Masked.interest flag = Some g →
  firstFailure host = Some err →
  value (Masked.StartMonitoring flag host arrivals t) = Returned ∧
  output (Masked.StartMonitoring flag host arrivals t)
    = (Subscribed <$> establishedBefore host)
      ++ [Println ["Error:"; err];
          Closed RouteClass; Closed AddrClass; Closed LinkClass] ∧
  signals (output (Masked.StartMonitoring flag host arrivals t)) = [].
Proof.
  intros G F. unfold Masked.StartMonitoring, firstFailure, establishedBefore in *.
  rewrite G.
  destruct host.(AddrSubscribe); [by injection F as ->|].
  destruct host.(LinkSubscribe); [by injection F as ->|].
  destruct host.(RouteSubscribe); [by injection F as ->|].
  destruct host.(LinkList); [done|]. by injection F as ->.
Qed.

Lemma failed_setup_trace_witness :
  output (Masked.StartMonitoring 7
            {| AddrSubscribe := None; LinkSubscribe := Some "operation not permitted";
               RouteSubscribe := None; LinkList := Ok [] |}
            [OnRoute sampleRoute] boot)
  = [Subscribed AddrClass; Println ["Error:"; "operation not permitted"];
     Closed RouteClass; Closed AddrClass; Closed LinkClass].
Proof.
  apply (failed_setup_trace 7 {| link := true; addr := true; route := true |}
           {| AddrSubscribe := None; LinkSubscribe := Some "operation not permitted";
              RouteSubscribe := None; LinkList := Ok [] |}
           "operation not permitted" [OnRoute sampleRoute] boot);
    reflexivity.
Defined.

(** ** A session in its loop *)

Lemma lifecycle_app (es1 es2 : list Effect) :
  lifecycle (es1 ++ es2) = lifecycle es1 ++ lifecycle es2.
Proof. apply omap_app. Qed.

Lemma dispatch_lifecycle (g : Interest) (a : Arrival) (t : Tracker) :
  lifecycle (output (Masked.dispatch g a t)) = [].
Proof.
  destruct a as [u|a f|r]; cbn [Masked.dispatch].
  - destruct g.(link); [|done].
    destruct (link_output_shape u t) as (lines&_&->).
    rewrite lifecycle_app. simpl. rewrite app_nil_r.
    induction lines as [|l lines IH]; [done|apply IH].
  - destruct g.(addr); [|done]. unfold Masked.handleAddrUpdate.
    destruct (f a.(LinkIndex)); [|done]. by destruct a.(NewAddr).
  - destruct g.(route); [|done]. unfold Masked.handleRouteUpdate.
    destruct (r.(RType) =? RTM_NEWROUTE)%Z; [done|].
    by destruct (r.(RType) =? RTM_DELROUTE)%Z.
Qed.

Lemma loop_lifecycle (g : Interest) (arrivals : list Arrival) (t : Tracker) :
  lifecycle (output (Masked.loop g arrivals t)) = [].
Proof.
  revert t. induction arrivals as [|a l IH]; intros t; [done|].
  by rewrite loop_cons_output, lifecycle_app, dispatch_lifecycle, IH.
Qed.

(** X11: a session that is in its loop has made its three subscriptions
    once each, address first, then link, then route, and has closed none of
    its done channels, however many notifications it has handled. *)
Theorem running_session_keeps_subscriptions (flag : Z) (host : Host)
    (arrivals : list Arrival) (t : Tracker) :
  value (Masked.StartMonitoring flag host arrivals t) = Selecting →
  lifecycle (output (Masked.StartMonitoring flag host arrivals t))
    = [Subscribed AddrClass; Subscribed LinkClass; Subscribed RouteClass].
Proof.
  intros V. destruct (session_selecting _ _ _ _ V) as (g&links&E1&E2&E3&E4&E5).
  rewrite (session_run flag host arrivals t g links) by done.
  rewrite output_triple, lifecycle_app, loop_lifecycle. done.
Qed.

Lemma running_session_keeps_subscriptions_witness :
  lifecycle (output (Masked.StartMonitoring 5 sampleHost
     [OnLink (sampleLink 16 "eth0" 0); OnRoute sampleRoute] boot))
  = [Subscribed AddrClass; Subscribed LinkClass; Subscribed RouteClass].
Proof.
  apply (running_session_keeps_subscriptions 5 sampleHost
           [OnLink (sampleLink 16 "eth0" 0); OnRoute sampleRoute] boot).
  reflexivity.
Defined.

Lemma seed_lookup (links : list Link) (t : Tracker) (name : string) :
  interfaces (after (Masked.seed links t)) !! name =
  if decide (name ∈ namesOf links) then Some true else interfaces t !! name.
Proof.
  revert t. induction links as [|l links IH]; intros t.
  { rewrite decide_False; [done|]. unfold namesOf. simpl. apply not_elem_of_nil. }
  rewrite seed_cons_after, IH. cbn [interfaces]. rewrite lookup_insert.
  unfold namesOf. rewrite fmap_cons. fold (namesOf links).
  destruct (decide (name ∈ namesOf links)) as [In|Nin].
  - rewrite decide_True by (apply elem_of_cons; by right). done.
  - destruct (decide (l.(Attrs).(Name) = name)) as [<-|Ne].
    + rewrite decide_True by (apply elem_of_cons; by left). done.
    + rewrite decide_False; [done|].
      intros [H|H]%elem_of_cons; [congruence|done].
Qed.

Lemma loop_nil_after (g : Interest) (t : Tracker) :
  after (Masked.loop g [] t) = t.
Proof. reflexivity. Qed.

(** X12: before the first notification, the Existence Set of a session
    holds exactly the names that [netlink.LinkList] enumerated, each mapped
    to [true], and the Newly-Created Set is empty. *)
Theorem startup_enumeration (flag : Z) (host : Host) (links : list Link)
    (t : Tracker) (name : string) :
  host.(LinkList) = Ok links →
  value (Masked.StartMonitoring flag host [] t) = Selecting →
  interfaces (after (Masked.StartMonitoring flag host [] t)) !! name
    = (if decide (name ∈ namesOf links) then Some true else None) ∧
  newlyCreated (after (Masked.StartMonitoring flag host [] t)) = ∅.
Proof.
  intros L V. destruct (session_selecting _ _ _ _ V) as (g&links'&E1&E2&E3&E4&E5).
  assert (links' = links) as -> by congruence.
  rewrite (session_run flag host [] t g links) by done.
  rewrite after_triple, loop_nil_after. split.
  - by rewrite seed_lookup.
  - by rewrite seed_newlyCreated.
Qed.

Lemma startup_enumeration_witness :
  interfaces (after (Masked.StartMonitoring 7 sampleHost [] boot)) !! "lo"
    = (if decide ("lo" ∈ namesOf [ {| Attrs := {| Name := "lo"; Flags := 1 |} |} ])
       then Some true else None) ∧
  newlyCreated (after (Masked.StartMonitoring 7 sampleHost [] boot)) = ∅.
Proof.
  apply (startup_enumeration 7 sampleHost
           [ {| Attrs := {| Name := "lo"; Flags := 1 |} |} ] boot "lo");
    reflexivity.
Defined.

(** ** What moves the tracker and what sends signals *)

Lemma dispatch_not_link_after (g : Interest) (a : Arrival) (t : Tracker) :
  isLinkArrival a = false → after (Masked.dispatch g a t) = t.
Proof.
  destruct a as [u|a f|r]; [done| |]; intros _; cbn [Masked.dispatch].
  - destruct g.(addr); [|done]. apply addr_handler_after.
  - destruct g.(route); [|done]. apply route_handler_run.
Qed.

(** X13: the tracker of a run depends on its link notifications only:
    dropping every address and route notification from the sequence leads
    to the same two maps. *)
Theorem tracker_follows_link_notifications (g : Interest)
    (arrivals : list Arrival) (t : Tracker) :
  after (Masked.loop g arrivals t)
  = after (Masked.loop g (filter (λ a, isLinkArrival a = true) arrivals) t).
Proof.
  revert t. induction arrivals as [|a l IH]; intros t; [done|].
  rewrite loop_cons_after. destruct (isLinkArrival a) eqn:L.
  - rewrite filter_cons_True by done. by rewrite loop_cons_after, IH.
  - rewrite filter_cons_False by (rewrite L; discriminate).
    by rewrite dispatch_not_link_after, IH.
Qed.

(** X14: when the link class is disabled in the mask, no sequence of
    notifications changes the tracker: the Existence Set stays as it was
    enumerated at startup. *)
Theorem tracker_frozen_without_link (g : Interest) (arrivals : list Arrival)
    (t : Tracker) :
  g.(link) = false →
  after (Masked.loop g arrivals t) = t.
Proof.
  intros L. revert t. induction arrivals as [|a l IH]; intros t; [done|].
  rewrite loop_cons_after, IH.
  destruct a as [u|a f|r].
  - cbn [Masked.dispatch]. by rewrite L.
  - by apply dispatch_not_link_after.
  - by apply dispatch_not_link_after.
Qed.

Lemma tracker_frozen_without_link_witness :
  after (Masked.loop {| link := false; addr := true; route := true |}
           [OnLink (sampleLink 17 "lo" 0); OnRoute sampleRoute]
           {| interfaces := {[ "lo" := true ]}; newlyCreated := ∅ |})
  = {| interfaces := {[ "lo" := true ]}; newlyCreated := ∅ |}.
Proof.
  apply (tracker_frozen_without_link
           {| link := false; addr := true; route := true |}
           [OnLink (sampleLink 17 "lo" 0); OnRoute sampleRoute]
           {| interfaces := {[ "lo" := true ]}; newlyCreated := ∅ |}).
  reflexivity.
Defined.

(** X15: over a whole session in its loop, the signals sent are as many as
    the notifications received whose class is enabled and, for an address,
    whose owner resolves; a call that returned has sent none. *)
Theorem session_signal_count (flag : Z) (g : Interest) (host : Host)
    (arrivals : list Arrival) (t : Tracker) :
  Masked.interest flag = Some g →
  length (signals (output (Masked.StartMonitoring flag host arrivals t)))
  = match value (Masked.StartMonitoring flag host arrivals t) with
    | Selecting => length (filter (λ a, signalling g a = true) arrivals)
    | Returned => 0
    end.
Proof.
  intros G.
  destruct (value (Masked.StartMonitoring flag host arrivals t)) eqn:V.
  - revert V. unfold Masked.StartMonitoring. rewrite G.
    destruct host.(AddrSubscribe); [done|].
    destruct host.(LinkSubscribe); [done|].
    destruct host.(RouteSubscribe); [done|].
    destruct host.(LinkList) as [links|]; done.
  - destruct (session_selecting _ _ _ _ V) as (g'&links&E1&E2&E3&E4&E5).
    assert (g' = g) as -> by congruence.
    rewrite (session_run flag host arrivals t g links) by done.
    rewrite output_triple, signals_app. cbn [signals omap app].
    apply loop_signal_count.
Qed.

Lemma session_signal_count_witness :
  length (signals (output (Masked.StartMonitoring 3 sampleHost
     [OnLink (sampleLink 16 "eth9" 0);
      OnAddr sampleAddr (λ _, Err "no such network interface");
      OnRoute sampleRoute] boot)))
  = match value (Masked.StartMonitoring 3 sampleHost
     [OnLink (sampleLink 16 "eth9" 0);
      OnAddr sampleAddr (λ _, Err "no such network interface");
      OnRoute sampleRoute] boot) with
    | Selecting =>
        length (filter (λ a, signalling {| link := true; addr := true; route := false |} a = true)
          [OnLink (sampleLink 16 "eth9" 0);
           OnAddr sampleAddr (λ _, Err "no such network interface");
           OnRoute sampleRoute])
    | Returned => 0
    end.
Proof.
  apply (session_signal_count 3 {| link := true; addr := true; route := false |}
           sampleHost
           [OnLink (sampleLink 16 "eth9" 0);
            OnAddr sampleAddr (λ _, Err "no such network interface");
            OnRoute sampleRoute] boot).
  reflexivity.
Defined.

(** ** The copy in package main against the monitoring package *)

Lemma withoutKlog_app (es1 es2 : list Main.MainEffect) :
  withoutKlog (es1 ++ es2) = withoutKlog es1 ++ withoutKlog es2.
Proof. apply omap_app. Qed.

Lemma withoutKlog_lib (es : list Effect) : withoutKlog (Main.Lib <$> es) = es.
Proof. induction es as [|e es IH]; [done|]. simpl. by f_equal. Qed.

Lemma main_loop_cons_tracker (a : Arrival) (l : list Arrival) (t : Tracker) :
  Main.tracker (Main.loop (a :: l) t)
  = Main.tracker (Main.loop l (Main.tracker (Main.dispatch a t))).
Proof. reflexivity. Qed.

Lemma main_loop_cons_log (a : Arrival) (l : list Arrival) (t : Tracker) :
  Main.log (Main.loop (a :: l) t)
  = Main.log (Main.dispatch a t)
    ++ Main.log (Main.loop l (Main.tracker (Main.dispatch a t))).
Proof. reflexivity. Qed.

Lemma main_link_handler (u : LinkUpdate) (t : Tracker) :
  Main.tracker (Main.handleLinkUpdate u t) = after (Masked.handleLinkUpdate u t) ∧
  Main.log (Main.handleLinkUpdate u t)
    = (Main.Lib <$> output (Masked.handleLinkUpdate u t))
      ++ [Main.Klog "Starting Netlink routine"].
Proof.
  unfold Main.handleLinkUpdate, Masked.handleLinkUpdate.
  destruct (u.(Header).(Type_) =? RTM_DELLINK)%Z; [split; reflexivity|].
  unfold mbind, Main.RunK_bind, Run_bind, Main.lib, readInterfaces,
    readNewlyCreated, value, after, output, Main.tracker, Main.log.
  cbn [fst snd].
  destruct (index (interfaces t) (Name (Attrs (Link_ u)))); cbn [negb andb].
  - destruct (u.(Header).(Type_) =? RTM_NEWLINK)%Z; [|split; reflexivity].
    destruct (negb (Z.land (Flags (Attrs (Link_ u))) FlagUp =? 0)%Z);
      [split; reflexivity|].
    destruct (index (newlyCreated t) (Name (Attrs (Link_ u))));
      split; reflexivity.
  - destruct (u.(Header).(Type_) =? RTM_NEWLINK)%Z; split; reflexivity.
Qed.

Lemma main_dispatch (a : Arrival) (t : Tracker) :
  Main.tracker (Main.dispatch a t) = after (Unmasked.dispatch a t) ∧
  withoutKlog (Main.log (Main.dispatch a t)) = output (Unmasked.dispatch a t) ∧
  sendsAreLogged (Main.log (Main.dispatch a t)) = true.
Proof.
  destruct a as [u|a f|r]; cbn [Main.dispatch Unmasked.dispatch].
  - change (Unmasked.handleLinkUpdate u t) with (Masked.handleLinkUpdate u t).
    destruct (main_link_handler u t) as [-> ->]. split; [done|].
    split.
    + rewrite withoutKlog_app, withoutKlog_lib. apply app_nil_r.
    + destruct (link_output_shape u t) as (lines&_&->).
      rewrite fmap_app, <- app_assoc.
      induction lines as [|l lines IH]; [done|apply IH].
  - unfold Main.handleAddrUpdate, Unmasked.handleAddrUpdate.
    destruct (f a.(LinkIndex)); [|done]. by destruct a.(NewAddr).
  - unfold Main.handleRouteUpdate, Unmasked.handleRouteUpdate.
    destruct (r.(RType) =? RTM_NEWROUTE)%Z; [done|].
    by destruct (r.(RType) =? RTM_DELROUTE)%Z.
Qed.

Lemma sendsAreLogged_app (es1 es2 : list Main.MainEffect) :
  sendsAreLogged es1 = true → sendsAreLogged es2 = true →
  sendsAreLogged (es1 ++ es2) = true.
Proof.
  intros H1 H2. revert H1.
  remember (length es1) as n eqn:Hn. revert es1 Hn.
  induction n as [n IH] using lt_wf_ind. intros es1 Hn.
  destruct es1 as [|[e|m] es1]; [done| |done].
  destruct e as [ops|cls|cls|ge]; simpl in *;
    try (apply (IH (length es1)); [lia|done]).
  destruct es1 as [|[e'|m'] es1]; [done|done|].
  simpl in *. intros [M H]%andb_true_iff.
  apply andb_true_iff. split; [done|]. apply (IH (length es1)); [lia|done|done].
Qed.

(** X16: the handlers and the dispatcher loop of package main do to the
    tracker exactly what those of the monitoring package do, and apart from
    their [klog] lines they have the same effects in the same order. *)
Theorem main_loop_matches_monitoring (arrivals : list Arrival) (t : Tracker) :
  Main.tracker (Main.loop arrivals t) = after (Unmasked.loop arrivals t) ∧
  withoutKlog (Main.log (Main.loop arrivals t)) = output (Unmasked.loop arrivals t).
Proof.
  revert t. induction arrivals as [|a l IH]; intros t; [done|].
  rewrite main_loop_cons_tracker, main_loop_cons_log, withoutKlog_app.
  destruct (main_dispatch a t) as (T&L&_). rewrite T, L.
  destruct (IH (after (Unmasked.dispatch a t))) as [-> ->].
  done.
Qed.

(** X17: in package main every send on the output channel is immediately
    followed by the [klog] line "Starting Netlink routine", and no other
    [klog] line is written, over any sequence of notifications. *)
Theorem main_logs_every_send (arrivals : list Arrival) (t : Tracker) :
  sendsAreLogged (Main.log (Main.loop arrivals t)) = true.
Proof.
  revert t. induction arrivals as [|a l IH]; intros t; [done|].
  rewrite main_loop_cons_log. apply sendsAreLogged_app; [|apply IH].
  apply main_dispatch.
Qed.

Example send_without_klog_is_not_logged :
  sendsAreLogged [Main.Lib (Sent GenericEventZero)] = false.
Proof. reflexivity. Qed.

Example main_loop_run :
  Main.log (Main.loop [OnLink (sampleLink 16 "eth0" 0); OnRoute sampleRoute] boot)
  = [Main.Lib (Println line_added); Main.Lib (Sent GenericEventZero);
     Main.Klog "Starting Netlink routine";
     Main.Lib (Println ["New route added:"; "10.0.0.0/8"]);
     Main.Lib (Sent GenericEventZero); Main.Klog "Starting Netlink routine"].
Proof. reflexivity. Qed.

(** ** The unmasked entry point *)

Lemma unmasked_start (host : Host) (arrivals : list Arrival) (t : Tracker) :
  Unmasked.startMonitoring host arrivals t
  = Masked.StartMonitoring 7 host arrivals t.
Proof.
  unfold Unmasked.startMonitoring, Masked.StartMonitoring.
  cbn [Masked.interest].
  destruct host.(AddrSubscribe); [done|].
  destruct host.(LinkSubscribe); [done|].
  destruct host.(RouteSubscribe); [done|].
  destruct host.(LinkList) as [links|]; [|done].
  rewrite !bind_run. by rewrite unmasked_seed, unmasked_loop.
Qed.

(** X18: a session of [startMonitoring] in its loop has sent one signal for
    every notification it received, of any class, except the address
    notifications whose owner did not resolve; a call that returned has sent
    none. *)
Theorem unmasked_signal_count (host : Host) (arrivals : list Arrival) (t : Tracker) :
  length (signals (output (Unmasked.startMonitoring host arrivals t)))
  = match value (Unmasked.startMonitoring host arrivals t) with
    | Selecting => length (filter (λ a, resolved a = true) arrivals)
    | Returned => 0
    end.
Proof.
  rewrite unmasked_start.
  destruct (value (Masked.StartMonitoring 7 host arrivals t)) eqn:V.
  - revert V. unfold Masked.StartMonitoring. cbn [Masked.interest].
    destruct host.(AddrSubscribe); [done|].
    destruct host.(LinkSubscribe); [done|].
    destruct host.(RouteSubscribe); [done|].
    destruct host.(LinkList) as [links|]; done.
  - destruct (session_selecting _ _ _ _ V) as (g&links&E1&E2&E3&E4&E5).
    rewrite (session_run 7 host arrivals t g links) by done.
    rewrite output_triple, signals_app.
    change (signals [Subscribed AddrClass; Subscribed LinkClass; Subscribed RouteClass])
      with (@nil GenericEvent).
    rewrite app_nil_l, loop_signal_count. injection E1 as <-.
    f_equal. apply list_filter_iff. intros a. by destruct a.
Qed.

(** ** The Newly-Created Set and the history of link notifications *)

Lemma link_handler_newlyCreated (u : LinkUpdate) (t : Tracker) (name : string) :
  index (newlyCreated (after (Masked.handleLinkUpdate u t))) name =
  if isDelLink name u then false
  else if isNewLink name u then
    if index (interfaces t) name then
      if isUp u then false else index (newlyCreated t) name
    else true
  else index (newlyCreated t) name.
Proof.
  unfold isDelLink, isNewLink.
  destruct (link_cases u t)
    as [E|[[E K]|[(E&K&U)|[(E&K&U&F)|[(E&K&U&F)|[N D]]]]]].
  - rewrite (link_delete u t E), E, after_triple. cbn [newlyCreated].
    rewrite index_delete. by case_decide; case_bool_decide.
  - rewrite (link_add u t E K), E, after_triple. cbn [newlyCreated].
    rewrite index_insert. case_decide; case_bool_decide; try done.
    subst name. by rewrite K.
  - rewrite (link_up u t E K U), E, after_triple. cbn [newlyCreated].
    rewrite index_delete. case_decide; case_bool_decide; try done.
    subst name. by rewrite K, U.
  - rewrite (link_down u t E K U F), E, after_triple.
    case_bool_decide; [|done]. subst name. by rewrite K, U.
  - rewrite (link_suppressed u t E K U F), E, after_triple.
    case_bool_decide; [|done]. subst name. by rewrite K, U.
  - rewrite (link_other u t N D), after_triple.
    apply Z.eqb_neq in N, D. by rewrite N, D.
Qed.

Lemma added_cons_bool (i : bool) (u : LinkUpdate) (history : list LinkUpdate)
    (name : string) :
  added_and_not_deleted (i = true) (u :: history) name ↔
  added_and_not_deleted
    ((if isDelLink name u then false else if isNewLink name u then true else i) = true)
    history name.
Proof.
  rewrite added_cons. apply added_initially_iff.
  destruct (isDelLink name u); [done|]. by destruct (isNewLink name u).
Qed.

Lemma newly_initially_iff (P Q : Prop) (history : list LinkUpdate) (name : string) :
  (P ↔ Q) →
  newly_added_and_not_confirmed P history name
  ↔ newly_added_and_not_confirmed Q history name.
Proof.
  intros PQ. unfold newly_added_and_not_confirmed.
  split; intros (before&u&later&E&N&A&F); exists before, u, later;
    (split; [done|]; split; [done|]; split; [|done]);
    intros A'; apply A; revert A'; by apply added_initially_iff.
Qed.

Lemma newly_cons (i n : bool) (u : LinkUpdate) (history : list LinkUpdate)
    (name : string) :
  newly_added_and_not_confirmed (i = true) (u :: history) name
  ∨ (n = true ∧ Forall (λ v, keepsNewlyCreated name v = true) (u :: history))
  ↔
  newly_added_and_not_confirmed
    ((if isDelLink name u then false else if isNewLink name u then true else i) = true)
    history name
  ∨ ((if isDelLink name u then false
      else if isNewLink name u then
        if i then if isUp u then false else n else true
      else n) = true
     ∧ Forall (λ v, keepsNewlyCreated name v = true) history).
Proof.
  unfold newly_added_and_not_confirmed. split.
  - intros [(before&v&later&E&Nv&NA&Q)|[Hn F]].
    + destruct before as [|w before]; simpl in E; injection E as -> ->.
      * right. rewrite added_nil in NA.
        rewrite (new_is_not_del _ _ Nv), Nv.
        split; [|done]. by destruct i.
      * left. exists before, v, later.
        split; [done|]. split; [done|]. split; [|done].
        by rewrite <- added_cons_bool.
    + apply Forall_cons in F as [Ku F]. right. split; [|done].
      unfold keepsNewlyCreated in Ku.
      apply andb_true_iff in Ku as [D U]. apply negb_true_iff in D, U.
      rewrite D. destruct (isNewLink name u); [|done].
      simpl in U. rewrite U. by destruct i.
  - intros [(before&v&later&E&Nv&NA&Q)|[Hn F]].
    + left. exists (u :: before), v, later. rewrite E.
      split; [done|]. split; [done|]. split; [|done].
      by rewrite added_cons_bool.
    + destruct (isDelLink name u) eqn:D; [done|].
      destruct (isNewLink name u) eqn:N.
      * destruct i.
        -- destruct (isUp u) eqn:U; [done|]. right. split; [done|].
           apply Forall_cons. split; [|done].
           unfold keepsNewlyCreated. by rewrite D, N, U.
        -- left. exists [], u, history.
           split; [done|]. split; [done|]. split; [|done].
           rewrite added_nil. discriminate.
      * right. split; [done|]. apply Forall_cons. split; [|done].
        unfold keepsNewlyCreated. by rewrite D, N.
Qed.

Lemma loop_newlyCreated (g : Interest) (arrivals : list Arrival) (t : Tracker)
    (name : string) :
  index (newlyCreated (after (Masked.loop g arrivals t))) name = true ↔
  newly_added_and_not_confirmed (index (interfaces t) name = true)
    (processedLinks g arrivals) name
  ∨ (index (newlyCreated t) name = true
     ∧ Forall (λ v, keepsNewlyCreated name v = true) (processedLinks g arrivals)).
Proof.
  assert (Nil : ∀ t',
    index (newlyCreated t') name = true ↔
    newly_added_and_not_confirmed (index (interfaces t') name = true) [] name
    ∨ (index (newlyCreated t') name = true
       ∧ Forall (λ v, keepsNewlyCreated name v = true) [])).
  { intros t'. split; [by right|].
    intros [(before&u&later&E&_)|[H _]]; [by destruct before|done]. }
  revert t. induction arrivals as [|a l IH]; intros t.
  { assert (processedLinks g [] = []) as ->
      by (unfold processedLinks; by destruct g.(link)).
    apply Nil. }
  rewrite loop_cons_after, IH, processedLinks_cons.
  destruct a as [u|a f|r]; cbn [Masked.dispatch].
  - destruct g.(link) eqn:L.
    + by rewrite newly_cons, link_handler_interfaces, link_handler_newlyCreated.
    + assert (processedLinks g l = []) as ->
        by (unfold processedLinks; by rewrite L).
      done.
  - destruct g.(addr); [|done]. by rewrite addr_handler_after.
  - destruct g.(route); [|done]. by rewrite (proj1 (route_handler_run r t)).
Qed.

(** X19: wherever a monitoring session stands, a name is in the
    Newly-Created Set exactly when some processed RTM_NEWLINK for it found
    it absent from the Existence Set (never enumerated or added, or deleted
    since) and no RTM_DELLINK for it and no RTM_NEWLINK for it with the "up"
    flag has been processed afterwards. *)
Theorem newlyCreated_follows_history (flag : Z) (host : Host)
    (arrivals : list Arrival) (g : Interest) (links : list Link) (name : string) :
  Masked.interest flag = Some g →
  host.(LinkList) = Ok links →
  value (Masked.StartMonitoring flag host arrivals boot) = Selecting →
  index (newlyCreated (after (Masked.StartMonitoring flag host arrivals boot))) name
    = true
  ↔ newly_added_and_not_confirmed (name ∈ namesOf links)
      (processedLinks g arrivals) name.
Proof.
  intros G L V.
  destruct (session_selecting _ _ _ _ V) as (g'&links'&E1&E2&E3&E4&E5).
  assert (g' = g) as -> by congruence.
  assert (links' = links) as -> by congruence.
  rewrite (session_run flag host arrivals boot g links) by done.
  rewrite after_triple, loop_newlyCreated, seed_newlyCreated.
  cbn [boot newlyCreated]. rewrite index_empty.
  rewrite (newly_initially_iff _ (name ∈ namesOf links)).
  - split; [intros [H|[H _]]; [done|discriminate]|by left].
  - rewrite seed_interfaces. unfold boot. cbn [interfaces].
    rewrite index_empty.
    split; [intros [H|H]; [done|discriminate]|by left].
Qed.

Lemma newlyCreated_follows_history_witness :
  index (newlyCreated (after (Masked.StartMonitoring 1 sampleHost
           [OnLink (sampleLink 16 "eth0" 0); OnLink (sampleLink 16 "lo" 1)] boot)))
        "eth0" = true
  ↔ newly_added_and_not_confirmed
      ("eth0" ∈ namesOf [ {| Attrs := {| Name := "lo"; Flags := 1 |} |} ])
      (processedLinks {| link := true; addr := false; route := false |}
         [OnLink (sampleLink 16 "eth0" 0); OnLink (sampleLink 16 "lo" 1)])
      "eth0".
Proof.
  apply (newlyCreated_follows_history 1 sampleHost
           [OnLink (sampleLink 16 "eth0" 0); OnLink (sampleLink 16 "lo" 1)]
           {| link := true; addr := false; route := false |}
           [ {| Attrs := {| Name := "lo"; Flags := 1 |} |} ] "eth0");
    reflexivity.
Defined.

Example newlyCreated_in_a_run :
  let r := Masked.StartMonitoring 1 sampleHost
     [OnLink (sampleLink 16 "lo" 0); OnLink (sampleLink 16 "eth0" 1);
      OnLink (sampleLink 16 "eth1" 0); OnLink (sampleLink 16 "eth1" 1)] boot in
  index (newlyCreated (after r)) "lo" = false ∧
  index (newlyCreated (after r)) "eth0" = true ∧
  index (newlyCreated (after r)) "eth1" = false.
Proof. vm_compute. done. Qed.
